(** * PlatformIO MCP server: build, upload and dispatch handlers

    A shallow embedding of [src/tools/build.ts], [src/tools/upload.ts], the
    parameter schemas of [src/types.ts] and the tool-call dispatcher of
    [src/index.ts], with the properties of the command execution layer
    proved about it.

    The handlers are asynchronous functions that validate their inputs, call
    the process executor once and interpret its outcome.  They are embedded
    in a small monad that threads a trace of observable events (validator
    calls and executor invocations) and an exception channel; [await] is
    sequencing in that monad. *)

From Stdlib Require Import String Ascii List ZArith QArith Bool Lia.
Import ListNotations.

Close Scope Q_scope.
Open Scope string_scope.
Open Scope list_scope.

(** Template literals and string concatenation. *)
Infix "+:+" := String.append (at level 60, right associativity).

(* ================================================================== *)
(** ** JavaScript values used by the handlers                          *)
(* ================================================================== *)

(** An optional string parameter ([environment?: string]) is [None] when it
    is [undefined].  JavaScript treats both [undefined] and the empty string
    as falsy: [truthy v] is the string itself when the guard [if (v)] is
    taken. *)
Definition truthy (v : option string) : option string :=
  match v with
  | Some s => if (s =? "")%string then None else Some s
  | None => None
  end.

(** [v || fallback] on an optional string. *)
Definition or_else (v : option string) (fallback : string) : string :=
  match truthy v with
  | Some s => s
  | None => fallback
  end.

(** JSON data, as it travels through the transport and [JSON.stringify].
    A JSON number is a finite double, hence a rational. *)
#[local] Set Warnings "-register-all".
Inductive Json : Type :=
| JNull
| JBool (b : bool)
| JNumber (n : Q)
| JString (s : string)
| JArray (items : list Json)
| JObject (fields : list (string * Json)).

(** Property lookup in an object literal; [None] is [undefined]. *)
Fixpoint lookup (key : string) (fields : list (string * Json)) : option Json :=
  match fields with
  | [] => None
  | (k, v) :: rest => if (k =? key)%string then Some v else lookup key rest
  end.

(* ================================================================== *)
(** ** Errors ([utils/errors.ts] declares the classes)                  *)
(* ================================================================== *)

(** The classes the handlers construct and test with [instanceof];
    [OtherError] stands for every other thrown value ([Error], the schema
    library's error, whatever the executor rejects with). *)
Inductive ErrorClass : Type := BuildError | UploadError | OtherError.

Definition is_BuildError (c : ErrorClass) : bool :=
  match c with BuildError => true | _ => false end.

(** The context object of an error: an object literal of optional strings. *)
Definition Context : Type := list (string * option string).

(** [new C(message, context)]. *)
Record Exn : Type := new
  { cls : ErrorClass;
    message : string;
    context : Context }.

(** [error instanceof BuildError]. *)
Definition instanceof_BuildError (error : Exn) : bool := is_BuildError (cls error).

(* ================================================================== *)
(** ** Data model ([types.ts])                                          *)
(* ================================================================== *)

Module CommandResult.
Record t : Type := make
  { stdout : string;
    stderr : string;
    exitCode : Z }.
End CommandResult.

Module BuildResult.
Record t : Type := make
  { success : bool;
    environment : string;
    output : string;
    errors : option (list string) }.
End BuildResult.

Module CleanResult.
Record t : Type := make
  { success : bool;
    message : string }.
End CleanResult.

Module UploadResult.
Record t : Type := make
  { success : bool;
    port : option string;
    output : string;
    errors : option (list string) }.
End UploadResult.

(** The options object and the whole call [execute(command, args, options)]. *)
Record ExecuteOptions : Type :=
  { cwd : string;
    timeout : Z }.

Record Invocation : Type :=
  { command : string;
    args : list string;
    options : ExecuteOptions }.

(** What awaiting [platformioExecutor.execute] gives: the promise resolves
    to a command result or rejects with a thrown value. *)
Inductive ExecReply : Type :=
| Resolved (result : CommandResult.t)
| Rejected (error : Exn).

(* ================================================================== *)
(** ** The handler monad: a trace of events and exceptions             *)
(* ================================================================== *)

(** Observable events of a handler run, in program order: each call of a
    validator with its input and verdict, and each executor invocation. *)
Inductive Event : Type :=
| PathValidated (input : string) (verdict : Exn + string)
| EnvironmentValidated (input : string) (verdict : bool)
| PortValidated (input : string) (verdict : bool)
| Executed (inv : Invocation).

Definition Trace : Type := list Event.

Definition M (A : Type) : Type := Trace -> Trace * (Exn + A).

Definition ret {A} (x : A) : M A := fun tr => (tr, inr x).

Definition bind {A B} (m : M A) (k : A -> M B) : M B :=
  fun tr =>
    match m tr with
    | (tr', inl e) => (tr', inl e)
    | (tr', inr x) => k x tr'
    end.

Definition throw {A} (e : Exn) : M A := fun tr => (tr, inl e).

(** [try { body } catch (error) { handler }]. *)
Definition try_catch {A} (body : M A) (handler : Exn -> M A) : M A :=
  fun tr =>
    match body tr with
    | (tr', inl e) => handler e tr'
    | (tr', inr x) => (tr', inr x)
    end.

Definition emit (ev : Event) : M unit := fun tr => (tr ++ [ev], inr tt).

(** A pure function that returns or throws, lifted. *)
Definition lift {A} (r : Exn + A) : M A := fun tr => (tr, r).

Declare Scope monad_scope.
Delimit Scope monad_scope with monad.
Notation "x <- m ;; k" := (bind m (fun x => k))
  (at level 100, m at next level, right associativity) : monad_scope.
Notation "m ;;; k" := (bind m (fun _ => k))
  (at level 100, right associativity) : monad_scope.
Open Scope monad_scope.

(** Running a handler from the empty trace. *)
Definition run {A} (m : M A) : Trace * (Exn + A) := m [].
Definition trace_of {A} (m : M A) : Trace := fst (run m).
Definition outcome_of {A} (m : M A) : Exn + A := snd (run m).

(** The executor invocations of a trace, in order. *)
Fixpoint invocations (tr : Trace) : list Invocation :=
  match tr with
  | [] => []
  | Executed inv :: rest => inv :: invocations rest
  | _ :: rest => invocations rest
  end.

(* ================================================================== *)
(** ** Imported modules, as interfaces                                  *)
(* ================================================================== *)

(** [utils/validation.ts]: [validateProjectPath] returns the validated path
    or throws; the two others return a boolean. *)
Class Validation : Type :=
  { validateProjectPath : string -> Exn + string;
    validateEnvironmentName : string -> bool;
    validateSerialPort : string -> bool }.

(** [utils/errors.ts]: the stderr scanner, the test [instanceof
    PlatformIOError] (the class hierarchy is declared there), the string
    conversion of a thrown value inside a template literal, and the message
    formatter of the server. *)
Class Errors : Type :=
  { parseStderrErrors : string -> list string;
    instanceof_PlatformIOError : Exn -> bool;
    String_of_error : Exn -> string;
    formatPlatformIOError : Exn -> string }.

(** [platformio.ts]: the reply of the external process to an invocation. *)
Class Executor : Type :=
  { platformioExecutor : Invocation -> ExecReply }.

Section Calls.
Context {V : Validation} {X : Executor}.

(** The validators and the executor as the handlers call them: the call is
    recorded in the trace, the value is the imported function's. *)
Definition callValidateProjectPath (projectDir : string) : M string :=
  emit (PathValidated projectDir (validateProjectPath projectDir)) ;;;
  lift (validateProjectPath projectDir).

Definition callValidateEnvironmentName (environment : string) : M bool :=
  emit (EnvironmentValidated environment (validateEnvironmentName environment)) ;;;
  ret (validateEnvironmentName environment).

Definition callValidateSerialPort (port : string) : M bool :=
  emit (PortValidated port (validateSerialPort port)) ;;;
  ret (validateSerialPort port).

(** [await platformioExecutor.execute(command, args, options)]. *)
Definition execute (command : string) (args : list string) (options : ExecuteOptions)
  : M CommandResult.t :=
  let inv := {| command := command; args := args; options := options |} in
  emit (Executed inv) ;;;
  match platformioExecutor inv with
  | Resolved result => ret result
  | Rejected error => throw error
  end.

End Calls.

(* ================================================================== *)
(** ** String methods used by [listTargets]                             *)
(* ================================================================== *)

(** A character of a [string] stands for one code unit below 256. *)

(** [s.split(sep)] for a one-character separator: the pieces between the
    separators, in order; the empty string gives one empty piece. *)
Fixpoint split (sep : ascii) (s : string) : list string :=
  match s with
  | EmptyString => [EmptyString]
  | String c rest =>
      if Ascii.eqb c sep
      then EmptyString :: split sep rest
      else match split sep rest with
           | piece :: pieces => String c piece :: pieces
           | [] => [String c EmptyString]
           end
  end.

(** The line feed, ["\n"]. *)
Definition LF : ascii := Ascii.ascii_of_nat 10.

(** ECMAScript white space and line terminators among the code units below
    256: TAB, LF, VT, FF, CR, SP and NBSP. *)
Definition isWhiteSpace (c : ascii) : bool :=
  let n := Ascii.nat_of_ascii c in
  ((9 <=? n)%nat && (n <=? 13)%nat) || (n =? 32)%nat || (n =? 160)%nat.

Fixpoint trimStart (s : string) : string :=
  match s with
  | EmptyString => EmptyString
  | String c rest => if isWhiteSpace c then trimStart rest else s
  end.

Fixpoint trimEnd (s : string) : string :=
  match s with
  | EmptyString => EmptyString
  | String c rest =>
      match trimEnd rest with
      | EmptyString => if isWhiteSpace c then EmptyString else String c EmptyString
      | kept => String c kept
      end
  end.

(** [s.trim()]. *)
Definition trim (s : string) : string := trimEnd (trimStart s).

(** [s.startsWith(p)]. *)
Definition startsWith (s p : string) : bool := String.prefix p s.

(** [s.includes(c)] for a one-character needle. *)
Fixpoint includes (s : string) (c : ascii) : bool :=
  match s with
  | EmptyString => false
  | String d rest => Ascii.eqb d c || includes rest c
  end.

(** A string in a condition: true unless empty. *)
Definition nonEmpty (s : string) : bool := negb (s =? "")%string.

(* ================================================================== *)
(** ** [src/tools/build.ts]                                             *)
(* ================================================================== *)

Section Handlers.
Context {V : Validation} {E : Errors} {X : Executor}.

(** The guard shared by the handlers that take an environment:
    [if (environment && !validateEnvironmentName(environment)) throw ...]. *)
Definition guardEnvironment (errorClass : ErrorClass) (environment : option string) : M unit :=
  match truthy environment with
  | Some e =>
      ok <- callValidateEnvironmentName e ;;
      if negb ok
      then throw (new errorClass ("Invalid environment name: " +:+ e) [("environment", Some e)])
      else ret tt
  | None => ret tt
  end.

(** [if (port && !validateSerialPort(port)) throw ...]. *)
Definition guardPort (port : option string) : M unit :=
  match truthy port with
  | Some p =>
      ok <- callValidateSerialPort p ;;
      if negb ok
      then throw (new UploadError ("Invalid serial port: " +:+ p) [("port", Some p)])
      else ret tt
  | None => ret tt
  end.

(** [if (v) args.push(flag, v)]. *)
Definition pushIf (args : list string) (flag : string) (v : option string) : list string :=
  match truthy v with
  | Some s => args ++ [flag; s]
  | None => args
  end.

(** The interpretation shared by the build handlers:
    [success = exitCode === 0], [errors = success ? undefined : parseStderrErrors(stderr)]. *)
Definition buildResult (environment : option string) (result : CommandResult.t) : BuildResult.t :=
  let success := (CommandResult.exitCode result =? 0)%Z in
  let errors := if success then None else Some (parseStderrErrors (CommandResult.stderr result)) in
  {| BuildResult.success := success;
     BuildResult.environment := or_else environment "default";
     BuildResult.output := CommandResult.stdout result;
     BuildResult.errors := errors |}.

Definition buildProject (projectDir : string) (environment : option string) : M BuildResult.t :=
  validatedPath <- callValidateProjectPath projectDir ;;
  guardEnvironment BuildError environment ;;;
  try_catch
    (let args := [] in
     let args := pushIf args "--environment" environment in
     result <- execute "run" args {| cwd := validatedPath; timeout := 600000 |} ;;
     ret (buildResult environment result))
    (fun error =>
       let ctx := [("projectDir", Some projectDir); ("environment", environment)] in
       if instanceof_PlatformIOError error
       then throw (new BuildError ("Build failed: " +:+ message error) ctx)
       else throw (new BuildError ("Failed to build project: " +:+ String_of_error error) ctx)).

Definition cleanProject (projectDir : string) : M CleanResult.t :=
  validatedPath <- callValidateProjectPath projectDir ;;
  try_catch
    (result <- execute "run" ["--target"; "clean"] {| cwd := validatedPath; timeout := 60000 |} ;;
     let success := (CommandResult.exitCode result =? 0)%Z in
     if negb success
     then throw (new BuildError ("Clean failed: " +:+ CommandResult.stderr result)
                   [("projectDir", Some projectDir); ("stderr", Some (CommandResult.stderr result))])
     else ret {| CleanResult.success := true;
                 CleanResult.message := "Successfully cleaned build artifacts" |})
    (fun error =>
       if instanceof_BuildError error
       then throw error
       else throw (new BuildError ("Failed to clean project: " +:+ String_of_error error)
                     [("projectDir", Some projectDir)])).

Definition buildTarget (projectDir target : string) (environment : option string)
  : M BuildResult.t :=
  validatedPath <- callValidateProjectPath projectDir ;;
  guardEnvironment BuildError environment ;;;
  try_catch
    (let args := ["--target"; target] in
     let args := pushIf args "--environment" environment in
     result <- execute "run" args {| cwd := validatedPath; timeout := 600000 |} ;;
     ret (buildResult environment result))
    (fun error =>
       let ctx := [("projectDir", Some projectDir); ("target", Some target);
                   ("environment", environment)] in
       if instanceof_PlatformIOError error
       then throw (new BuildError ("Target '" +:+ target +:+ "' failed: " +:+ message error) ctx)
       else throw (new BuildError
                     ("Failed to build target '" +:+ target +:+ "': " +:+ String_of_error error) ctx)).

(** The loop body of [listTargets]: one line of stdout, pushed onto
    [targets] when it is kept. *)
Definition isTargetLine (trimmed : string) : bool :=
  nonEmpty trimmed && negb (startsWith trimmed "Environment") && negb (includes trimmed ":").

Definition pushTarget (targets : list string) (line : string) : list string :=
  let trimmed := trim line in
  if isTargetLine trimmed then targets ++ [trimmed] else targets.

(** [for (const line of lines) { ... }] over [stdout.split('\n')]. *)
Definition parseTargets (stdout : string) : list string :=
  let lines := split LF stdout in
  fold_left pushTarget lines [].

Definition listTargets (projectDir : string) (environment : option string)
  : M (list string) :=
  validatedPath <- callValidateProjectPath projectDir ;;
  try_catch
    (let args := ["--list-targets"] in
     let args := pushIf args "--environment" environment in
     result <- execute "run" args {| cwd := validatedPath; timeout := 30000 |} ;;
     if negb (CommandResult.exitCode result =? 0)%Z
     then throw (new BuildError "Failed to list targets"
                   [("projectDir", Some projectDir); ("stderr", Some (CommandResult.stderr result))])
     else ret (parseTargets (CommandResult.stdout result)))
    (fun error =>
       if instanceof_BuildError error
       then throw error
       else throw (new BuildError ("Failed to list build targets: " +:+ String_of_error error)
                     [("projectDir", Some projectDir)])).

(* ================================================================== *)
(** ** [src/tools/upload.ts]                                            *)
(* ================================================================== *)

(** [args.slice(1)]. *)
Definition slice1 (args : list string) : list string := skipn 1 args.

(** The interpretation shared by the upload handlers. *)
Definition uploadResult (port : option string) (result : CommandResult.t) : UploadResult.t :=
  let success := (CommandResult.exitCode result =? 0)%Z in
  let errors := if success then None else Some (parseStderrErrors (CommandResult.stderr result)) in
  {| UploadResult.success := success;
     UploadResult.port := port;
     UploadResult.output := CommandResult.stdout result;
     UploadResult.errors := errors |}.

(** The [catch] block shared by the upload handlers, up to its two message
    prefixes. *)
Definition rethrowUpload (failed failedTo projectDir : string) (port environment : option string)
  (error : Exn) : M UploadResult.t :=
  let ctx := [("projectDir", Some projectDir); ("port", port); ("environment", environment)] in
  if instanceof_PlatformIOError error
  then throw (new UploadError (failed +:+ message error) ctx)
  else throw (new UploadError (failedTo +:+ String_of_error error) ctx).

Definition uploadFirmware (projectDir : string) (port environment : option string)
  : M UploadResult.t :=
  validatedPath <- callValidateProjectPath projectDir ;;
  guardEnvironment UploadError environment ;;;
  guardPort port ;;;
  try_catch
    (let args := ["run"; "--target"; "upload"] in
     let args := pushIf args "--environment" environment in
     let args := pushIf args "--upload-port" port in
     result <- execute "run" (slice1 args) {| cwd := validatedPath; timeout := 300000 |} ;;
     ret (uploadResult port result))
    (rethrowUpload "Upload failed: " "Failed to upload firmware: " projectDir port environment).

Definition uploadAndMonitor (projectDir : string) (port environment : option string)
  : M UploadResult.t :=
  validatedPath <- callValidateProjectPath projectDir ;;
  guardEnvironment UploadError environment ;;;
  guardPort port ;;;
  try_catch
    (let args := ["run"; "--target"; "upload"; "--target"; "monitor"] in
     let args := pushIf args "--environment" environment in
     let args := match truthy port with
                 | Some p => (args ++ ["--upload-port"; p]) ++ ["--monitor-port"; p]
                 | None => args
                 end in
     result <- execute "run" (slice1 args) {| cwd := validatedPath; timeout := 300000 |} ;;
     ret (uploadResult port result))
    (rethrowUpload "Upload and monitor failed: " "Failed to upload and monitor: "
       projectDir port environment).

Definition buildAndUpload (projectDir : string) (port environment : option string)
  : M UploadResult.t :=
  uploadFirmware projectDir port environment.

Definition uploadFilesystem (projectDir : string) (port environment : option string)
  : M UploadResult.t :=
  validatedPath <- callValidateProjectPath projectDir ;;
  guardEnvironment UploadError environment ;;;
  guardPort port ;;;
  try_catch
    (let args := ["run"; "--target"; "uploadfs"] in
     let args := pushIf args "--environment" environment in
     let args := pushIf args "--upload-port" port in
     result <- execute "run" (slice1 args) {| cwd := validatedPath; timeout := 300000 |} ;;
     ret (uploadResult port result))
    (rethrowUpload "Filesystem upload failed: " "Failed to upload filesystem: "
       projectDir port environment).

End Handlers.

(* ================================================================== *)
(** ** Parameter schemas ([src/types.ts])                               *)
(* ================================================================== *)

(** A schema of the validation library parses a possibly [undefined] value
    into data of type [A], or throws.  The combinators below are the ones
    the parameter schemas use; [.describe(...)] only attaches a
    description and is left out. *)
Definition Schema (A : Type) : Type := option Json -> Exn + A.

(** The library's own error; its message lists the issues found. *)
Definition zodError (issue : string) : Exn := new OtherError issue [].

(** [z.string()]. *)
Definition z_string : Schema string :=
  fun v =>
    match v with
    | Some (JString s) => inr s
    | _ => inl (zodError "Expected string")
    end.

(** [inner.min(n)] on a string schema. *)
Definition z_min (n : nat) (inner : Schema string) : Schema string :=
  fun v =>
    match inner v with
    | inr s => if (n <=? String.length s)%nat then inr s
               else inl (zodError "String must contain at least the minimum of characters")
    | inl e => inl e
    end.

(** [z.number()]. *)
Definition z_number : Schema Q :=
  fun v =>
    match v with
    | Some (JNumber n) => inr n
    | _ => inl (zodError "Expected number")
    end.

(** [inner.optional()]: [undefined] is accepted as it is. *)
Definition z_optional {A} (inner : Schema A) : Schema (option A) :=
  fun v =>
    match v with
    | None => inr None
    | Some _ => match inner v with
                | inr a => inr (Some a)
                | inl e => inl e
                end
    end.

(** [inner.default(d)]: [undefined] is replaced by the default before the
    inner schema sees the input, so the result is never [undefined]. *)
Definition z_default {A} (d : A) (inner : Schema (option A)) : Schema A :=
  fun v =>
    match v with
    | None => inr d
    | Some _ => match inner v with
                | inr (Some a) => inr a
                | inr None => inr d
                | inl e => inl e
                end
    end.

(** [z.record(z.string())]: an object whose values are all strings. *)
Fixpoint stringValues (fields : list (string * Json)) : Exn + list (string * string) :=
  match fields with
  | [] => inr []
  | (k, JString s) :: rest =>
      match stringValues rest with
      | inr l => inr ((k, s) :: l)
      | inl e => inl e
      end
  | _ :: _ => inl (zodError "Expected string")
  end.

Definition z_record_string : Schema (list (string * string)) :=
  fun v =>
    match v with
    | Some (JObject fields) => stringValues fields
    | _ => inl (zodError "Expected object")
    end.

(** [z.object({...})]: the input must be an object; each field schema
    parses the property of its name. *)
Definition z_object {A} (shape : list (string * Json) -> Exn + A) : Schema A :=
  fun v =>
    match v with
    | Some (JObject fields) => shape fields
    | _ => inl (zodError "Expected object")
    end.

Definition field {A} (fields : list (string * Json)) (key : string) (s : Schema A) : Exn + A :=
  s (lookup key fields).

Definition andThen {A B} (r : Exn + A) (k : A -> Exn + B) : Exn + B :=
  match r with
  | inr a => k a
  | inl e => inl e
  end.

Notation "'let?' x := r 'in' k" := (andThen r (fun x => k))
  (at level 10, x name, r at level 100, k at level 200).

Module ListBoardsParams.
Record t : Type := make { filter : option string }.
End ListBoardsParams.

Module GetBoardInfoParams.
Record t : Type := make { boardId : string }.
End GetBoardInfoParams.

Module InitProjectParams.
Record t : Type := make
  { board : string;
    framework : option string;
    projectDir : string;
    platformOptions : option (list (string * string)) }.
End InitProjectParams.

Module BuildProjectParams.
Record t : Type := make { projectDir : string; environment : option string }.
End BuildProjectParams.

Module CleanProjectParams.
Record t : Type := make { projectDir : string }.
End CleanProjectParams.

Module UploadParams.
Record t : Type := make
  { projectDir : string;
    port : option string;
    environment : option string }.
End UploadParams.

Module StartMonitorParams.
Record t : Type := make
  { port : option string;
    baud : option Q;
    projectDir : option string }.
End StartMonitorParams.

Module SearchLibrariesParams.
Record t : Type := make { query : string; limit : Q }.
End SearchLibrariesParams.

Module InstallLibraryParams.
Record t : Type := make
  { library : string;
    projectDir : option string;
    version : option string }.
End InstallLibraryParams.

Module ListInstalledLibrariesParams.
Record t : Type := make { projectDir : option string }.
End ListInstalledLibrariesParams.

Definition ListBoardsParamsSchema : Schema ListBoardsParams.t :=
  z_object (fun o =>
    let? filter := field o "filter" (z_optional z_string) in
    inr (ListBoardsParams.make filter)).

Definition GetBoardInfoParamsSchema : Schema GetBoardInfoParams.t :=
  z_object (fun o =>
    let? boardId := field o "boardId" (z_min 1 z_string) in
    inr (GetBoardInfoParams.make boardId)).

Definition InitProjectParamsSchema : Schema InitProjectParams.t :=
  z_object (fun o =>
    let? board := field o "board" (z_min 1 z_string) in
    let? framework := field o "framework" (z_optional z_string) in
    let? projectDir := field o "projectDir" z_string in
    let? platformOptions := field o "platformOptions" (z_optional z_record_string) in
    inr (InitProjectParams.make board framework projectDir platformOptions)).

Definition BuildProjectParamsSchema : Schema BuildProjectParams.t :=
  z_object (fun o =>
    let? projectDir := field o "projectDir" (z_min 1 z_string) in
    let? environment := field o "environment" (z_optional z_string) in
    inr (BuildProjectParams.make projectDir environment)).

Definition CleanProjectParamsSchema : Schema CleanProjectParams.t :=
  z_object (fun o =>
    let? projectDir := field o "projectDir" (z_min 1 z_string) in
    inr (CleanProjectParams.make projectDir)).

Definition UploadFirmwareParamsSchema : Schema UploadParams.t :=
  z_object (fun o =>
    let? projectDir := field o "projectDir" (z_min 1 z_string) in
    let? port := field o "port" (z_optional z_string) in
    let? environment := field o "environment" (z_optional z_string) in
    inr (UploadParams.make projectDir port environment)).

Definition UploadFilesystemParamsSchema : Schema UploadParams.t :=
  z_object (fun o =>
    let? projectDir := field o "projectDir" (z_min 1 z_string) in
    let? port := field o "port" (z_optional z_string) in
    let? environment := field o "environment" (z_optional z_string) in
    inr (UploadParams.make projectDir port environment)).

Definition StartMonitorParamsSchema : Schema StartMonitorParams.t :=
  z_object (fun o =>
    let? port := field o "port" (z_optional z_string) in
    let? baud := field o "baud" (z_optional z_number) in
    let? projectDir := field o "projectDir" (z_optional z_string) in
    inr (StartMonitorParams.make port baud projectDir)).

Definition SearchLibrariesParamsSchema : Schema SearchLibrariesParams.t :=
  z_object (fun o =>
    let? query := field o "query" (z_min 1 z_string) in
    let? limit := field o "limit" (z_default 20%Q (z_optional z_number)) in
    inr (SearchLibrariesParams.make query limit)).

Definition InstallLibraryParamsSchema : Schema InstallLibraryParams.t :=
  z_object (fun o =>
    let? library := field o "library" (z_min 1 z_string) in
    let? projectDir := field o "projectDir" (z_optional z_string) in
    let? version := field o "version" (z_optional z_string) in
    inr (InstallLibraryParams.make library projectDir version)).

Definition ListInstalledLibrariesParamsSchema : Schema ListInstalledLibrariesParams.t :=
  z_object (fun o =>
    let? projectDir := field o "projectDir" (z_optional z_string) in
    inr (ListInstalledLibrariesParams.make projectDir)).

(* ================================================================== *)
(** ** The tool-call dispatcher ([src/index.ts])                         *)
(* ================================================================== *)

(** The tool functions whose modules are imported by the server
    ([tools/boards], [tools/devices], [tools/projects], [tools/monitor],
    [tools/libraries]): each is an arbitrary handler of the monad, returning
    the data that is then serialised. *)
Class Tools : Type :=
  { listBoards : option string -> M Json;
    getBoardInfo : string -> M Json;
    listDevices : M Json;
    initProject : InitProjectParams.t -> M Json;
    startMonitor : option string -> option Q -> option string -> M Json;
    searchLibraries : string -> Q -> M Json;
    installLibrary : string -> option string -> option string -> M Json;
    listInstalledLibraries : option string -> M Json }.

(** [JSON.stringify(value, null, 2)]. *)
Class Serializer : Type :=
  { JSON_stringify : Json -> string }.

(** The results of the handlers above as [JSON.stringify] sees them: a
    property whose value is [undefined] is left out. *)
Definition optionalField (key : string) (v : option Json) : list (string * Json) :=
  match v with
  | Some j => [(key, j)]
  | None => []
  end.

Definition errorsJson (errors : option (list string)) : option Json :=
  option_map (fun l => JArray (map JString l)) errors.

Definition BuildResult_toJson (r : BuildResult.t) : Json :=
  JObject ([("success", JBool (BuildResult.success r));
            ("environment", JString (BuildResult.environment r));
            ("output", JString (BuildResult.output r))]
           ++ optionalField "errors" (errorsJson (BuildResult.errors r))).

Definition CleanResult_toJson (r : CleanResult.t) : Json :=
  JObject [("success", JBool (CleanResult.success r));
           ("message", JString (CleanResult.message r))].

Definition UploadResult_toJson (r : UploadResult.t) : Json :=
  JObject ([("success", JBool (UploadResult.success r))]
           ++ optionalField "port" (option_map JString (UploadResult.port r))
           ++ [("output", JString (UploadResult.output r))]
           ++ optionalField "errors" (errorsJson (UploadResult.errors r))).

Record CallToolRequest : Type :=
  { name : string;
    arguments : option Json }.

Record TextContent : Type :=
  { type : string;
    text : string }.

(** [isError] is absent ([None]) from a successful result. *)
Record CallToolResult : Type :=
  { content : list TextContent;
    isError : option bool }.

Section Server.
Context {V : Validation} {E : Errors} {X : Executor} {T : Tools} {S : Serializer}.

(** [{ content: [{ type: 'text', text: JSON.stringify(value, null, 2) }] }]. *)
Definition textResult (value : Json) : CallToolResult :=
  {| content := [{| type := "text"; text := JSON_stringify value |}];
     isError := None |}.

(** The body of the [try] block: the [switch] over the tool name. *)
Definition dispatch (request : CallToolRequest) : M CallToolResult :=
  let name := name request in
  let args := arguments request in
  if (name =? "list_boards")%string then
    params <- lift (ListBoardsParamsSchema args) ;;
    boards <- listBoards (ListBoardsParams.filter params) ;;
    ret (textResult boards)
  else if (name =? "get_board_info")%string then
    params <- lift (GetBoardInfoParamsSchema args) ;;
    board <- getBoardInfo (GetBoardInfoParams.boardId params) ;;
    ret (textResult board)
  else if (name =? "list_devices")%string then
    devices <- listDevices ;;
    ret (textResult devices)
  else if (name =? "init_project")%string then
    params <- lift (InitProjectParamsSchema args) ;;
    result <- initProject params ;;
    ret (textResult result)
  else if (name =? "build_project")%string then
    params <- lift (BuildProjectParamsSchema args) ;;
    result <- buildProject (BuildProjectParams.projectDir params)
                (BuildProjectParams.environment params) ;;
    ret (textResult (BuildResult_toJson result))
  else if (name =? "clean_project")%string then
    params <- lift (CleanProjectParamsSchema args) ;;
    result <- cleanProject (CleanProjectParams.projectDir params) ;;
    ret (textResult (CleanResult_toJson result))
  else if (name =? "upload_firmware")%string then
    params <- lift (UploadFirmwareParamsSchema args) ;;
    result <- uploadFirmware (UploadParams.projectDir params) (UploadParams.port params)
                (UploadParams.environment params) ;;
    ret (textResult (UploadResult_toJson result))
  else if (name =? "upload_filesystem")%string then
    params <- lift (UploadFilesystemParamsSchema args) ;;
    result <- uploadFilesystem (UploadParams.projectDir params) (UploadParams.port params)
                (UploadParams.environment params) ;;
    ret (textResult (UploadResult_toJson result))
  else if (name =? "start_monitor")%string then
    params <- lift (StartMonitorParamsSchema args) ;;
    result <- startMonitor (StartMonitorParams.port params) (StartMonitorParams.baud params)
                (StartMonitorParams.projectDir params) ;;
    ret (textResult result)
  else if (name =? "search_libraries")%string then
    params <- lift (SearchLibrariesParamsSchema args) ;;
    libraries <- searchLibraries (SearchLibrariesParams.query params)
                   (SearchLibrariesParams.limit params) ;;
    ret (textResult libraries)
  else if (name =? "install_library")%string then
    params <- lift (InstallLibraryParamsSchema args) ;;
    result <- installLibrary (InstallLibraryParams.library params)
                (InstallLibraryParams.projectDir params) (InstallLibraryParams.version params) ;;
    ret (textResult result)
  else if (name =? "list_installed_libraries")%string then
    params <- lift (ListInstalledLibrariesParamsSchema args) ;;
    libraries <- listInstalledLibraries (ListInstalledLibrariesParams.projectDir params) ;;
    ret (textResult libraries)
  else
    throw (new OtherError ("Unknown tool: " +:+ name) []).

(** The [catch] block: the marked error result. *)
Definition errorResult (error : Exn) : CallToolResult :=
  let errorMessage := formatPlatformIOError error in
  {| content := [{| type := "text"; text := "Error: " +:+ errorMessage |}];
     isError := Some true |}.

(** The handler registered for [CallToolRequestSchema]. *)
Definition callTool (request : CallToolRequest) : M CallToolResult :=
  try_catch (dispatch request) (fun error => ret (errorResult error)).

End Server.

(* ================================================================== *)
(** ** The handlers as one family                                      *)
(* ================================================================== *)

(** A call of one of the exported handlers with its arguments. *)
Inductive HandlerCall : Type :=
| BuildProject (projectDir : string) (environment : option string)
| CleanProject (projectDir : string)
| BuildTarget (projectDir target : string) (environment : option string)
| ListTargets (projectDir : string) (environment : option string)
| UploadFirmware (projectDir : string) (port environment : option string)
| UploadAndMonitor (projectDir : string) (port environment : option string)
| BuildAndUpload (projectDir : string) (port environment : option string)
| UploadFilesystem (projectDir : string) (port environment : option string).

Inductive HandlerResult : Type :=
| Built (result : BuildResult.t)
| Cleaned (result : CleanResult.t)
| Targets (targets : list string)
| Uploaded (result : UploadResult.t).

Definition projectDirOf (c : HandlerCall) : string :=
  match c with
  | BuildProject p _ | CleanProject p | BuildTarget p _ _ | ListTargets p _
  | UploadFirmware p _ _ | UploadAndMonitor p _ _ | BuildAndUpload p _ _
  | UploadFilesystem p _ _ => p
  end.

Definition environmentOf (c : HandlerCall) : option string :=
  match c with
  | CleanProject _ => None
  | BuildProject _ e | BuildTarget _ _ e | ListTargets _ e
  | UploadFirmware _ _ e | UploadAndMonitor _ _ e | BuildAndUpload _ _ e
  | UploadFilesystem _ _ e => e
  end.

Definition portOf (c : HandlerCall) : option string :=
  match c with
  | UploadFirmware _ port _ | UploadAndMonitor _ port _ | BuildAndUpload _ port _
  | UploadFilesystem _ port _ => port
  | _ => None
  end.

Definition targetOf (c : HandlerCall) : option string :=
  match c with
  | BuildTarget _ t _ => Some t
  | _ => None
  end.

(** The identifier inputs a call places in the argument vector: its
    environment name when the guard [if (environment)] is taken, and its
    target name. *)
Definition identifiersOf (c : HandlerCall) : list string :=
  match truthy (environmentOf c) with Some e => [e] | None => [] end
  ++ match targetOf c with Some t => [t] | None => [] end.

(** The handlers that guard their environment with
    [validateEnvironmentName]. *)
Definition guardsEnvironment (c : HandlerCall) : bool :=
  match c with
  | ListTargets _ _ => false
  | _ => true
  end.

Section Family.
Context {V : Validation} {E : Errors} {X : Executor}.

Definition handle (c : HandlerCall) : M HandlerResult :=
  match c with
  | BuildProject p e => r <- buildProject p e ;; ret (Built r)
  | CleanProject p => r <- cleanProject p ;; ret (Cleaned r)
  | BuildTarget p t e => r <- buildTarget p t e ;; ret (Built r)
  | ListTargets p e => r <- listTargets p e ;; ret (Targets r)
  | UploadFirmware p port e => r <- uploadFirmware p port e ;; ret (Uploaded r)
  | UploadAndMonitor p port e => r <- uploadAndMonitor p port e ;; ret (Uploaded r)
  | BuildAndUpload p port e => r <- buildAndUpload p port e ;; ret (Uploaded r)
  | UploadFilesystem p port e => r <- uploadFilesystem p port e ;; ret (Uploaded r)
  end.

(** The verdicts of the validators on the optional inputs, as the guards
    consult them: an absent or empty value is not checked. *)
Definition acceptsPath (projectDir : string) : bool :=
  match validateProjectPath projectDir with
  | inr _ => true
  | inl _ => false
  end.

Definition acceptsEnvironment (environment : option string) : bool :=
  match truthy environment with
  | Some e => validateEnvironmentName e
  | None => true
  end.

Definition acceptsPort (port : option string) : bool :=
  match truthy port with
  | Some p => validateSerialPort p
  | None => true
  end.

End Family.

(** The string a validator accepted, for an accepting validation event. *)
Definition acceptedInput (ev : Event) : option string :=
  match ev with
  | PathValidated p (inr _) => Some p
  | EnvironmentValidated e true => Some e
  | PortValidated s true => Some s
  | _ => None
  end.

(** [x] has passed a validator in the events [pre]. *)
Definition passedValidator (pre : Trace) (x : string) : Prop :=
  exists ev, In ev pre /\ acceptedInput ev = Some x.

(** The timeout of each invocation of a trace. *)
Definition timeouts (tr : Trace) : list Z :=
  map (fun inv => timeout (options inv)) (invocations tr).

(** The tool names of the server's tool list. *)
Definition toolNames : list string :=
  ["list_boards"; "get_board_info"; "list_devices"; "init_project"; "build_project";
   "clean_project"; "upload_firmware"; "upload_filesystem"; "start_monitor";
   "search_libraries"; "install_library"; "list_installed_libraries"].

(** ASCII lower-casing, to speak of identifiers that differ only in case. *)
Definition lowerChar (c : ascii) : ascii :=
  let n := Ascii.nat_of_ascii c in
  if ((65 <=? n)%nat && (n <=? 90)%nat)%bool then Ascii.ascii_of_nat (n + 32) else c.

Fixpoint toLowerCase (s : string) : string :=
  match s with
  | EmptyString => EmptyString
  | String c rest => String (lowerChar c) (toLowerCase rest)
  end.

(** The target lines of an output, in the words of the specification: the
    trimmed lines that are not empty, do not start with [Environment] and
    contain no colon, in the order of the output. *)
Definition targetLines (stdout : string) : list string :=
  filter (fun l => nonEmpty l && negb (startsWith l "Environment") && negb (includes l ":"))
    (map trim (split LF stdout)).

(* ================================================================== *)
(** ** Sample collaborators                                            *)
(* ================================================================== *)

(** Concrete instances of the imported modules, on which the general
    theorems are exercised. *)
Module Sample.

Fixpoint allChars (f : ascii -> bool) (s : string) : bool :=
  match s with
  | EmptyString => true
  | String c rest => f c && allChars f rest
  end.

Fixpoint hasDotDot (s : string) : bool :=
  match s with
  | String "." (String "." _) => true
  | String _ rest => hasDotDot rest
  | EmptyString => false
  end.

Definition identifierChar (c : ascii) : bool :=
  let n := Ascii.nat_of_ascii c in
  ((48 <=? n)%nat && (n <=? 57)%nat) || ((65 <=? n)%nat && (n <=? 90)%nat)
  || ((97 <=? n)%nat && (n <=? 122)%nat)
  || (n =? 45)%nat || (n =? 95)%nat || (n =? 46)%nat.

(** Modelled from the spec: the validators of [utils/validation.ts].  A path
    is rejected when empty or when it has a [..] segment; an identifier has
    only letters, digits, hyphen, underscore and dot and at most 64
    characters; a port has a device-file or a COM-port shape. *)
Definition validation : Validation :=
  {| validateProjectPath := fun p =>
       if nonEmpty p && negb (hasDotDot p) then inr p
       else inl (new OtherError ("Invalid path: " +:+ p) [("path", Some p)]);
     validateEnvironmentName := fun e =>
       nonEmpty e && allChars identifierChar e && (String.length e <=? 64)%nat;
     validateSerialPort := fun s => startsWith s "/dev/" || startsWith s "COM" |}.

(** Modelled from the spec: the helpers of [utils/errors.ts].  The scan of
    stderr keeps its non-empty trimmed lines; only foreign errors count as
    executor errors; an error prints as its message. *)
Definition errors : Errors :=
  {| parseStderrErrors := fun stderr => filter nonEmpty (map trim (split LF stderr));
     instanceof_PlatformIOError := fun e => negb (is_BuildError (cls e));
     String_of_error := fun e => "Error: " +:+ message e;
     formatPlatformIOError := fun e => message e |}.

(** An external process that always exits with the given result. *)
Definition replying (result : CommandResult.t) : Executor :=
  {| platformioExecutor := fun _ => Resolved result |}.

Definition succeeded : CommandResult.t :=
  {| CommandResult.stdout := "Environment    Group     Name" +:+ String LF
                             ("upload" +:+ String LF ("  monitor  " +:+ String LF
                             ("esp32dev: done" +:+ String LF "")));
     CommandResult.stderr := "";
     CommandResult.exitCode := 0 |}.

Definition failed : CommandResult.t :=
  {| CommandResult.stdout := "Compiling";
     CommandResult.stderr := "Error: Could not open port /dev/ttyUSB0";
     CommandResult.exitCode := 1 |}.

(** Tool functions that answer with their arguments. *)
Definition optString (v : option string) : Json :=
  match v with Some s => JString s | None => JNull end.

Definition tools : Tools :=
  {| listBoards := fun filter => ret (JArray [optString filter]);
     getBoardInfo := fun boardId => ret (JString boardId);
     listDevices := ret (JArray []);
     initProject := fun params => ret (JString (InitProjectParams.projectDir params));
     startMonitor := fun port _ _ => ret (optString port);
     searchLibraries := fun query limit => ret (JArray [JString query; JNumber limit]);
     installLibrary := fun library _ _ => ret (JString library);
     listInstalledLibraries := fun projectDir => ret (optString projectDir) |}.

(** A serialiser that only names the shape of the data. *)
Definition serializer : Serializer :=
  {| JSON_stringify := fun v =>
       match v with
       | JNull => "null"
       | JBool _ => "boolean"
       | JNumber _ => "number"
       | JString s => s
       | JArray _ => "[...]"
       | JObject _ => "{...}"
       end |}.

End Sample.

(* ================================================================== *)
(** ** Statements shared by the properties                              *)
(* ================================================================== *)

Section Statements.
Context {V : Validation} {E : Errors} {X : Executor}.

(** How a handler result reads an executor outcome: success exactly on exit
    code 0, the output is stdout as captured, no [errors] on success, and on
    failure the [errors] scanned from stderr. *)
Definition interpretsExit (r : CommandResult.t)
  (success : bool) (output : string) (errors : option (list string)) : Prop :=
  (success = true <-> CommandResult.exitCode r = 0%Z) /\
  output = CommandResult.stdout r /\
  (CommandResult.exitCode r = 0%Z -> errors = None) /\
  (CommandResult.exitCode r <> 0%Z ->
     success = false /\ errors = Some (parseStderrErrors (CommandResult.stderr r))).

Definition interpretsBuild (r : CommandResult.t) (b : BuildResult.t) : Prop :=
  interpretsExit r (BuildResult.success b) (BuildResult.output b) (BuildResult.errors b).

Definition interpretsUpload (r : CommandResult.t) (u : UploadResult.t) : Prop :=
  interpretsExit r (UploadResult.success u) (UploadResult.output u) (UploadResult.errors u).

(** The boundary invariant as the specification words it, for one call:
    at every executor invocation the working directory is what
    [validateProjectPath] returned for the project directory, and every
    identifier of the call found in the argument vector has passed a
    validator before. *)
Definition boundaryAsStated (c : HandlerCall) : Prop :=
  forall pre inv post,
    trace_of (handle c) = pre ++ Executed inv :: post ->
    In (PathValidated (projectDirOf c) (inr (cwd (options inv)))) pre /\
    forall x, In x (identifiersOf c) -> In x (args inv) -> passedValidator pre x.

End Statements.

(** The argument vectors of the invocations of a trace. *)
Definition argvs (tr : Trace) : list (list string) := map args (invocations tr).

(** The [environment] field of a build result, when the handler returned. *)
Definition environmentField (r : Exn + BuildResult.t) : option string :=
  match r with
  | inr b => Some (BuildResult.environment b)
  | inl _ => None
  end.

(** Each invocation of a trace paired with the events that precede it;
    [seen] are the events already passed. *)
Fixpoint executionsFrom (seen : Trace) (tr : Trace) : list (Trace * Invocation) :=
  match tr with
  | [] => []
  | Executed inv :: rest => (seen, inv) :: executionsFrom (seen ++ [Executed inv]) rest
  | ev :: rest => executionsFrom (seen ++ [ev]) rest
  end.

(* ================================================================== *)
(** ** The handler family, continued                                    *)
(* ================================================================== *)

(** The class of the errors a handler constructs: [BuildError] in
    [build.ts], [UploadError] in [upload.ts]. *)
Definition errorClassOf (c : HandlerCall) : ErrorClass :=
  match c with
  | BuildProject _ _ | CleanProject _ | BuildTarget _ _ _ | ListTargets _ _ => BuildError
  | UploadFirmware _ _ _ | UploadAndMonitor _ _ _ | BuildAndUpload _ _ _
  | UploadFilesystem _ _ _ => UploadError
  end.

(** The same call with another environment argument. *)
Definition withEnvironment (c : HandlerCall) (environment : option string) : HandlerCall :=
  match c with
  | BuildProject p _ => BuildProject p environment
  | CleanProject p => CleanProject p
  | BuildTarget p t _ => BuildTarget p t environment
  | ListTargets p _ => ListTargets p environment
  | UploadFirmware p port _ => UploadFirmware p port environment
  | UploadAndMonitor p port _ => UploadAndMonitor p port environment
  | BuildAndUpload p port _ => BuildAndUpload p port environment
  | UploadFilesystem p port _ => UploadFilesystem p port environment
  end.

(** The same call with another port argument. *)
Definition withPort (c : HandlerCall) (port : option string) : HandlerCall :=
  match c with
  | UploadFirmware p _ e => UploadFirmware p port e
  | UploadAndMonitor p _ e => UploadAndMonitor p port e
  | BuildAndUpload p _ e => BuildAndUpload p port e
  | UploadFilesystem p _ e => UploadFilesystem p port e
  | other => other
  end.

(** The handlers of [upload.ts], which take a port. *)
Definition takesPort (c : HandlerCall) : bool :=
  match c with
  | UploadFirmware _ _ _ | UploadAndMonitor _ _ _ | BuildAndUpload _ _ _
  | UploadFilesystem _ _ _ => true
  | _ => false
  end.

(* ================================================================== *)
(** ** The tool list ([ListToolsRequestSchema] handler of [index.ts])    *)
(* ================================================================== *)

(** The JSON Schema types the tool list uses for its properties. *)
Inductive PropertyType : Type := TString | TNumber | TObject.

(** One entry of the tool list: its name, the names and types of the
    properties of its [inputSchema], and its [required] array (empty when
    the entry has none).  The descriptions are documentation and are left
    out. *)
Record ToolDescriptor : Type :=
  { toolName : string;
    properties : list (string * PropertyType);
    required : list string }.

Definition listedTools : list ToolDescriptor :=
  [ {| toolName := "list_boards";
       properties := [("filter", TString)];
       required := [] |};
    {| toolName := "get_board_info";
       properties := [("boardId", TString)];
       required := ["boardId"] |};
    {| toolName := "list_devices";
       properties := [];
       required := [] |};
    {| toolName := "init_project";
       properties := [("board", TString); ("framework", TString); ("projectDir", TString);
                      ("platformOptions", TObject)];
       required := ["board"; "projectDir"] |};
    {| toolName := "build_project";
       properties := [("projectDir", TString); ("environment", TString)];
       required := ["projectDir"] |};
    {| toolName := "clean_project";
       properties := [("projectDir", TString)];
       required := ["projectDir"] |};
    {| toolName := "upload_firmware";
       properties := [("projectDir", TString); ("port", TString); ("environment", TString)];
       required := ["projectDir"] |};
    {| toolName := "upload_filesystem";
       properties := [("projectDir", TString); ("port", TString); ("environment", TString)];
       required := ["projectDir"] |};
    {| toolName := "start_monitor";
       properties := [("port", TString); ("baud", TNumber); ("projectDir", TString)];
       required := [] |};
    {| toolName := "search_libraries";
       properties := [("query", TString); ("limit", TNumber)];
       required := ["query"] |};
    {| toolName := "install_library";
       properties := [("library", TString); ("projectDir", TString); ("version", TString)];
       required := ["library"] |};
    {| toolName := "list_installed_libraries";
       properties := [("projectDir", TString)];
       required := [] |} ].

(** A JSON value is of a JSON Schema type. *)
Definition hasType (ty : PropertyType) (v : Json) : bool :=
  match ty, v with
  | TString, JString _ => true
  | TNumber, JNumber _ => true
  | TObject, JObject _ => true
  | _, _ => false
  end.

(** The arguments of a request carry a [projectDir] the parameter schemas
    accept: a string of at least one character. *)
Definition validProjectDirArg (args : option Json) : bool :=
  match args with
  | Some (JObject fields) =>
      match lookup "projectDir" fields with
      | Some (JString s) => (1 <=? String.length s)%nat
      | _ => false
      end
  | _ => false
  end.

(** The tools whose functions are in [build.ts] and [upload.ts]. *)
Definition projectTools : list string :=
  ["build_project"; "clean_project"; "upload_firmware"; "upload_filesystem"].

(* ================================================================== *)
(** ** The library search configuration schema ([src/types.ts])         *)
(* ================================================================== *)

(** [inner.min(n, message)]: as [min], with the given message. *)
Definition z_min_message (n : nat) (message : string) (inner : Schema string) : Schema string :=
  fun v =>
    match inner v with
    | inr s => if (n <=? String.length s)%nat then inr s else inl (zodError message)
    | inl e => inl e
    end.

(** [inner.positive()] on a number schema: strictly above zero. *)
Definition z_positive (inner : Schema Q) : Schema Q :=
  fun v =>
    match inner v with
    | inr n => if Qle_bool n 0 then inl (zodError "Number must be greater than 0") else inr n
    | inl e => inl e
    end.

Module LibrarySearchConfig.
Record t : Type := make { query : string; limit : option Q }.
End LibrarySearchConfig.

Definition LibrarySearchConfigSchema : Schema LibrarySearchConfig.t :=
  z_object (fun o =>
    let? query := field o "query" (z_min_message 1 "Search query is required" z_string) in
    let? limit := field o "limit" (z_optional (z_positive z_number)) in
    inr (LibrarySearchConfig.make query limit)).

(** What [trimStart] leaves is empty or starts with a character that is
    not white space. *)
Definition startsBlack (s : string) : Prop :=
  match s with
  | EmptyString => True
  | String d _ => isWhiteSpace d = false
  end.

(** An external process that cannot be run: every invocation rejects. *)
Module Failing.

Definition rejecting (error : Exn) : Executor :=
  {| platformioExecutor := fun _ => Rejected error |}.

Definition notFound : Exn :=
  new OtherError "PlatformIO CLI not found" [("command", Some "pio")].

End Failing.

(* ================================================================== *)
(** ** Proof support                                                    *)
(* ================================================================== *)

(** Unfolds a handler run down to the verdicts of the collaborators. *)
Ltac unfold_run :=
  unfold trace_of, outcome_of, timeouts, run, handle,
    buildProject, cleanProject, buildTarget, listTargets,
    buildAndUpload, uploadFirmware, uploadAndMonitor, uploadFilesystem,
    guardEnvironment, guardPort, rethrowUpload,
    callValidateProjectPath, callValidateEnvironmentName, callValidateSerialPort,
    execute, try_catch, bind, ret, throw, emit, lift, pushIf, slice1,
    acceptsPath, acceptsEnvironment, acceptsPort in *.

(** Splits on the next scrutinee of the goal, down to the verdict it is
    computed from. *)
Ltac case_atom x :=
  lazymatch x with
  | negb ?y => case_atom y
  | andb ?a _ => case_atom a
  | orb ?a _ => case_atom a
  | _ => destruct x eqn:?
  end.

Ltac case_step :=
  match goal with
  | |- context [match ?x with _ => _ end] =>
      lazymatch x with
      | context [match _ with _ => _ end] => fail
      | _ => case_atom x
      end
  end.

Ltac run_cases := unfold_run; cbn; repeat (case_step; cbn in *; try discriminate).

(** Closes a goal [exists before after, l = before ++ flag :: v :: after]
    on a concrete argument vector. *)
Ltac find_flag :=
  first [ exists []; eexists; reflexivity
        | eexists [_; _]; eexists; reflexivity
        | eexists [_; _; _; _]; eexists; reflexivity ].

(** The string methods on small inputs. *)
Example split_lines :
  split LF ("a" +:+ String LF ("b" +:+ String LF "")) = ["a"; "b"; ""].
Proof. reflexivity. Qed.

Example split_empty : split LF "" = [""].
Proof. reflexivity. Qed.

Example trim_both_ends : trim "  run tests  " = "run tests".
Proof. reflexivity. Qed.

Example trim_blank : trim (String LF "   ") = "".
Proof. reflexivity. Qed.

Lemma split_nonempty (sep : ascii) (s : string) : split sep s <> [].
Proof.
  destruct s as [| c rest]; cbn; [discriminate |].
  destruct (Ascii.eqb c sep); [discriminate |].
  destruct (split sep rest); discriminate.
Qed.

(** Joining the pieces with the separator gives the string back. *)
Lemma split_join (sep : ascii) (s : string) :
  String.concat (String sep "") (split sep s) = s.
Proof.
  induction s as [| c rest IH]; cbn; [reflexivity |].
  pose proof (split_nonempty sep rest) as Hne.
  destruct (split sep rest) as [| piece pieces]; [contradiction |].
  destruct (Ascii.eqb_spec c sep) as [-> | Hneq].
  - cbn in *. rewrite IH. reflexivity.
  - cbn in *. destruct pieces; cbn in *; subst rest; reflexivity.
Qed.

(** No piece holds the separator. *)
Lemma split_no_separator (sep : ascii) (s piece : string) :
  In piece (split sep s) -> includes piece sep = false.
Proof.
  revert piece. induction s as [| c rest IH]; cbn; intros piece Hin.
  - destruct Hin as [<- | []]. reflexivity.
  - destruct (Ascii.eqb_spec c sep) as [-> | Hneq].
    + destruct Hin as [<- | Hin]; [reflexivity | auto].
    + destruct (split sep rest) as [| first pieces] eqn:Hs.
      * destruct Hin as [<- | []]. cbn.
        apply Ascii.eqb_neq in Hneq. rewrite Hneq. reflexivity.
      * destruct Hin as [<- | Hin].
        -- cbn. apply Ascii.eqb_neq in Hneq. rewrite Hneq. cbn.
           apply IH. left. reflexivity.
        -- apply IH. right. exact Hin.
Qed.

Section Properties.
Context {V : Validation} {E : Errors} {X : Executor}.

Lemma interpretsExit_intro (r : CommandResult.t) :
  interpretsExit r (CommandResult.exitCode r =? 0)%Z (CommandResult.stdout r)
    (if (CommandResult.exitCode r =? 0)%Z then None
     else Some (parseStderrErrors (CommandResult.stderr r))).
Proof.
  unfold interpretsExit.
  destruct (Z.eqb_spec (CommandResult.exitCode r) 0) as [H0 | Hn].
  - repeat split; auto; intros; congruence.
  - repeat split; auto; intros; try congruence; contradiction.
Qed.

(** C3. When the executor resolves with an outcome, each build and upload
    handler returns a result whose [success] is true exactly when the exit
    code is 0, whose [output] is the captured stdout unchanged, whose
    [errors] is absent on success and is [parseStderrErrors(stderr)] on any
    non-zero exit code. *)
Theorem exit_code_interpretation
  (projectDir validatedPath target : string) (port environment : option string)
  (r : CommandResult.t) :
  validateProjectPath projectDir = inr validatedPath ->
  acceptsEnvironment environment = true ->
  acceptsPort port = true ->
  (forall inv, platformioExecutor inv = Resolved r) ->
  (exists b, outcome_of (buildProject projectDir environment) = inr b /\ interpretsBuild r b) /\
  (exists b, outcome_of (buildTarget projectDir target environment) = inr b
             /\ interpretsBuild r b) /\
  (exists u, outcome_of (uploadFirmware projectDir port environment) = inr u
             /\ interpretsUpload r u) /\
  (exists u, outcome_of (uploadAndMonitor projectDir port environment) = inr u
             /\ interpretsUpload r u) /\
  (exists u, outcome_of (buildAndUpload projectDir port environment) = inr u
             /\ interpretsUpload r u) /\
  (exists u, outcome_of (uploadFilesystem projectDir port environment) = inr u
             /\ interpretsUpload r u).
Proof.
  intros Hpath Henv Hport Hexec.
  unfold interpretsBuild, interpretsUpload.
  repeat split; unfold_run; cbn; rewrite Hpath; cbn;
    destruct (truthy environment) as [e|]; cbn; try rewrite Henv; cbn;
    destruct (truthy port) as [s|]; cbn; try rewrite Hport; cbn;
    rewrite Hexec; cbn;
    eexists; (split; [reflexivity | apply interpretsExit_intro]).
Qed.

(** C6. Every invocation a handler makes carries the timeout of its kind of
    operation, for every input: 30000 ms for [listTargets], 600000 ms for
    [buildProject] and [buildTarget], 300000 ms for [uploadFirmware],
    [uploadAndMonitor] and [uploadFilesystem]; and the handler makes that one
    invocation exactly when its validation guards let the call through. *)
Theorem timeout_classes
  (projectDir target : string) (port environment : option string) :
  timeouts (trace_of (listTargets projectDir environment))
    = (if acceptsPath projectDir then [30000%Z] else []) /\
  timeouts (trace_of (buildProject projectDir environment))
    = (if acceptsPath projectDir && acceptsEnvironment environment
       then [600000%Z] else []) /\
  timeouts (trace_of (buildTarget projectDir target environment))
    = (if acceptsPath projectDir && acceptsEnvironment environment
       then [600000%Z] else []) /\
  timeouts (trace_of (uploadFirmware projectDir port environment))
    = (if acceptsPath projectDir && acceptsEnvironment environment && acceptsPort port
       then [300000%Z] else []) /\
  timeouts (trace_of (uploadAndMonitor projectDir port environment))
    = (if acceptsPath projectDir && acceptsEnvironment environment && acceptsPort port
       then [300000%Z] else []) /\
  timeouts (trace_of (uploadFilesystem projectDir port environment))
    = (if acceptsPath projectDir && acceptsEnvironment environment && acceptsPort port
       then [300000%Z] else []).
Proof.
  repeat split; run_cases; reflexivity.
Qed.

Lemma executionsFrom_split (pre post seen : Trace) (inv : Invocation) :
  In (seen ++ pre, inv) (executionsFrom seen (pre ++ Executed inv :: post)).
Proof.
  revert seen. induction pre as [| ev pre IH]; intros seen; cbn.
  - rewrite app_nil_r. left. reflexivity.
  - replace (seen ++ ev :: pre) with ((seen ++ [ev]) ++ pre)
      by (rewrite <- app_assoc; reflexivity).
    destruct ev; try apply IH. right. apply IH.
Qed.

Lemma executions_of_trace (tr pre post : Trace) (inv : Invocation) :
  tr = pre ++ Executed inv :: post -> In (pre, inv) (executionsFrom [] tr).
Proof.
  intros ->. apply (executionsFrom_split pre post []).
Qed.

(** C1, as amended.  At every executor invocation made by any handler, the
    working directory is the value [validateProjectPath] returned for the
    project directory, validated before the invocation; in every handler
    that guards its environment ([buildProject], [buildTarget] and the
    upload handlers) the environment name placed after [--environment] was
    accepted by [validateEnvironmentName] before the invocation; the target
    name of [buildTarget] is placed after [--target] as it was given. *)
Theorem boundary_invariant (c : HandlerCall) (pre post : Trace) (inv : Invocation) :
  trace_of (handle c) = pre ++ Executed inv :: post ->
  (validateProjectPath (projectDirOf c) = inr (cwd (options inv)) /\
   In (PathValidated (projectDirOf c) (inr (cwd (options inv)))) pre) /\
  (guardsEnvironment c = true ->
   forall e, truthy (environmentOf c) = Some e ->
     validateEnvironmentName e = true /\
     In (EnvironmentValidated e true) pre /\
     exists before after, args inv = before ++ "--environment" :: e :: after) /\
  (forall t, targetOf c = Some t -> exists rest, args inv = "--target" :: t :: rest).
Proof.
  intros H. apply executions_of_trace in H. revert H.
  destruct c; run_cases;
    (intros [H | []] || intros []);
    injection H as <- <-; cbn;
    (split; [split; [congruence | auto] | split]);
    try (intros Hguard; try discriminate Hguard; intros e0 [= <-]);
    try discriminate;
    try (intros t [= <-]; eexists; reflexivity);
    try (split; [assumption | split; [cbn; auto | find_flag]]).
Qed.

(** Where a guard is consulted, a rejecting verdict stops the handler: it
    throws before the executor is reached. *)
Lemma guarded_rejection_never_executes (c : HandlerCall) :
  guardsEnvironment c = true ->
  acceptsPath (projectDirOf c) && acceptsEnvironment (environmentOf c)
    && acceptsPort (portOf c) = false ->
  invocations (trace_of (handle c)) = [] /\ exists error, outcome_of (handle c) = inl error.
Proof.
  destruct c; cbn [guardsEnvironment projectDirOf environmentOf portOf];
    intros Hg Hrej; try discriminate Hg; revert Hrej;
    run_cases; intros; try discriminate; (split; [reflexivity | eexists; reflexivity]).
Qed.

(** C2, at its failing input.  An environment name that
    [validateEnvironmentName] rejects stops [buildProject] with the
    validation error before any invocation, but [listTargets], which never
    consults the validator, pushes the same name into the argument vector
    and invokes the executor. *)
Theorem listTargets_skips_environment_check (projectDir validatedPath e : string) :
  validateProjectPath projectDir = inr validatedPath ->
  e <> "" ->
  validateEnvironmentName e = false ->
  run (buildProject projectDir (Some e))
    = ([PathValidated projectDir (inr validatedPath); EnvironmentValidated e false],
       inl (new BuildError ("Invalid environment name: " +:+ e) [("environment", Some e)])) /\
  trace_of (listTargets projectDir (Some e))
    = [PathValidated projectDir (inr validatedPath);
       Executed {| command := "run";
                   args := ["--list-targets"; "--environment"; e];
                   options := {| cwd := validatedPath; timeout := 30000 |} |}].
Proof.
  intros Hpath Hne Hrej. apply String.eqb_neq in Hne. split.
  - unfold_run. cbn. rewrite Hpath. cbn. rewrite Hne. cbn.
    rewrite Hrej. reflexivity.
  - unfold_run. cbn. rewrite Hpath. cbn. rewrite Hne. cbn.
    repeat (case_step; cbn); reflexivity.
Qed.

(** C5. [buildAndUpload] is [uploadFirmware] on every input.  It never
    makes two executor invocations: it makes exactly one, the composite
    [run --target upload] in the validated directory, when its inputs pass
    validation, and none when validation throws. *)
Theorem buildAndUpload_is_uploadFirmware
  (projectDir : string) (port environment : option string) :
  (forall tr, buildAndUpload projectDir port environment tr
              = uploadFirmware projectDir port environment tr) /\
  (List.length (invocations (trace_of (buildAndUpload projectDir port environment))) <= 1)%nat /\
  invocations (trace_of (buildAndUpload projectDir port environment))
  = match validateProjectPath projectDir with
    | inr validatedPath =>
        if acceptsEnvironment environment && acceptsPort port
        then [{| command := "run";
                 args := pushIf (pushIf ["--target"; "upload"] "--environment" environment)
                           "--upload-port" port;
                 options := {| cwd := validatedPath; timeout := 300000 |} |}]
        else []
    | inl _ => []
    end.
Proof.
  split; [reflexivity | split].
  - run_cases; auto.
  - run_cases; reflexivity.
Qed.

(** C8, as amended.  When the inputs of [uploadAndMonitor] pass validation,
    exactly one executor invocation occurs: the command [run] with an
    argument vector that begins [--target upload --target monitor] (the
    leading [run] of the local array is dropped by [slice(1)]), then
    [--environment] and the environment when one is given, then, when a
    non-empty port is given, that same port under both [--upload-port] and
    [--monitor-port]. *)
Theorem uploadAndMonitor_invocation
  (projectDir validatedPath : string) (port environment : option string) :
  validateProjectPath projectDir = inr validatedPath ->
  acceptsEnvironment environment = true ->
  acceptsPort port = true ->
  invocations (trace_of (uploadAndMonitor projectDir port environment))
  = [{| command := "run";
        args := ["--target"; "upload"; "--target"; "monitor"]
                ++ match truthy environment with
                   | Some e => ["--environment"; e]
                   | None => []
                   end
                ++ match truthy port with
                   | Some p => ["--upload-port"; p; "--monitor-port"; p]
                   | None => []
                   end;
        options := {| cwd := validatedPath; timeout := 300000 |} |}].
Proof.
  intros Hpath Henv Hport. revert Henv Hport.
  unfold_run. cbn. rewrite Hpath. cbn.
  repeat (case_step; cbn); intros; try discriminate; reflexivity.
Qed.

(** C7. An accepted environment name reaches the executor and the result as
    it was given: the argument vector of [buildProject] is
    [--environment e] (after [--target t] for [buildTarget]) and the
    returned [environment] field is [e], character for character.  So two
    accepted names that differ, be it only in the case of a letter, give
    different argument vectors and different [environment] fields. *)
Theorem environment_case_preserved
  (projectDir validatedPath target e : string) (r : CommandResult.t) :
  validateProjectPath projectDir = inr validatedPath ->
  e <> "" ->
  validateEnvironmentName e = true ->
  (forall inv, platformioExecutor inv = Resolved r) ->
  (argvs (trace_of (buildProject projectDir (Some e))) = [["--environment"; e]] /\
   environmentField (outcome_of (buildProject projectDir (Some e))) = Some e) /\
  (argvs (trace_of (buildTarget projectDir target (Some e)))
     = [["--target"; target; "--environment"; e]] /\
   environmentField (outcome_of (buildTarget projectDir target (Some e))) = Some e) /\
  (forall e', e' <> "" -> validateEnvironmentName e' = true -> e' <> e ->
     argvs (trace_of (buildProject projectDir (Some e')))
       <> argvs (trace_of (buildProject projectDir (Some e))) /\
     environmentField (outcome_of (buildProject projectDir (Some e')))
       <> environmentField (outcome_of (buildProject projectDir (Some e)))).
Proof.
  intros Hpath Hne Hacc Hexec.
  assert (Hrun : forall x, x <> "" -> validateEnvironmentName x = true ->
            argvs (trace_of (buildProject projectDir (Some x))) = [["--environment"; x]] /\
            environmentField (outcome_of (buildProject projectDir (Some x))) = Some x).
  { intros x Hx Hv. apply String.eqb_neq in Hx.
    unfold argvs, environmentField, or_else. unfold_run. unfold buildResult, or_else, truthy.
    cbn. rewrite Hpath. cbn. rewrite Hx. cbn. rewrite Hv. cbn. rewrite Hexec. cbn.
    rewrite ?Hx. split; reflexivity. }
  split; [apply Hrun; assumption | split].
  - pose proof Hne as Hx. apply String.eqb_neq in Hx.
    unfold argvs, environmentField. unfold_run. unfold buildResult, or_else, truthy.
    cbn. rewrite Hpath. cbn. rewrite Hx. cbn. rewrite Hacc. cbn. rewrite Hexec. cbn.
    rewrite ?Hx. split; reflexivity.
  - intros e' Hne' Hacc' Hdiff.
    destruct (Hrun e Hne Hacc) as [-> ->]. destruct (Hrun e' Hne' Hacc') as [-> ->].
    split; congruence.
Qed.

Lemma fold_pushTarget (lines acc : list string) :
  fold_left pushTarget lines acc
  = acc ++ filter isTargetLine (map trim lines).
Proof.
  revert acc. induction lines as [| line lines IH]; intros acc; cbn.
  - rewrite app_nil_r. reflexivity.
  - rewrite IH. unfold pushTarget.
    destruct (isTargetLine (trim line)).
    + rewrite <- app_assoc. reflexivity.
    + reflexivity.
Qed.

Lemma parseTargets_targetLines (stdout : string) :
  parseTargets stdout = targetLines stdout.
Proof.
  unfold parseTargets, targetLines. rewrite fold_pushTarget. reflexivity.
Qed.

(** C9. On an executor outcome with exit code 0, [listTargets] returns the
    target lines of stdout: its trimmed lines that are not empty, do not
    start with [Environment] and contain no colon, in the order of stdout.
    On an outcome with any other exit code it throws a [BuildError] whose
    context holds the stderr text, and returns no list. *)
Theorem listTargets_outcome
  (projectDir validatedPath : string) (environment : option string) (r : CommandResult.t) :
  validateProjectPath projectDir = inr validatedPath ->
  (forall inv, platformioExecutor inv = Resolved r) ->
  (CommandResult.exitCode r = 0%Z ->
     outcome_of (listTargets projectDir environment)
     = inr (targetLines (CommandResult.stdout r))) /\
  (CommandResult.exitCode r <> 0%Z ->
     exists error,
       outcome_of (listTargets projectDir environment) = inl error /\
       cls error = BuildError /\
       In ("stderr", Some (CommandResult.stderr r)) (context error)).
Proof.
  intros Hpath Hexec. split; intros Hcode.
  - unfold_run. cbn. rewrite Hpath. cbn. rewrite Hexec. cbn.
    rewrite Hcode. cbn. rewrite parseTargets_targetLines. reflexivity.
  - apply Z.eqb_neq in Hcode.
    unfold_run. cbn. rewrite Hpath. cbn. rewrite Hexec. cbn.
    rewrite Hcode. cbn. eexists. split; [reflexivity | split; cbn; auto].
Qed.

End Properties.

Section ServerProperties.
Context {V : Validation} {E : Errors} {X : Executor} {T : Tools} {S : Serializer}.

Lemma callTool_catches (request : CallToolRequest) (tr : Trace) :
  callTool request tr
  = match dispatch request tr with
    | (tr', inl error) => (tr', inr (errorResult error))
    | (tr', inr response) => (tr', inr response)
    end.
Proof. reflexivity. Qed.

Lemma unknown_tool (request : CallToolRequest) (tr : Trace) :
  ~ In (name request) toolNames ->
  dispatch request tr = (tr, inl (new OtherError ("Unknown tool: " +:+ name request) [])).
Proof.
  intros Hnot. unfold dispatch.
  repeat match goal with
         | |- context [String.eqb ?a ?b] =>
             destruct (String.eqb_spec a b) as [Heq | _];
             [exfalso; apply Hnot; rewrite Heq; cbn; tauto |]
         end.
  reflexivity.
Qed.

(** C4. The tool-call handler answers every request with a result and
    throws nothing: a value thrown while dispatching or running a handler
    becomes the result marked [isError: true] whose text is [Error: ]
    followed by the formatted message, a returned result is passed on, and
    a tool name outside the tool list gives the marked result for
    [Unknown tool: name]. *)
Theorem callTool_always_responds (request : CallToolRequest) (tr : Trace) :
  (exists tr' response, callTool request tr = (tr', inr response)) /\
  (forall tr' error,
     dispatch request tr = (tr', inl error) ->
     callTool request tr
     = (tr', inr {| content := [{| type := "text";
                                   text := "Error: " +:+ formatPlatformIOError error |}];
                    isError := Some true |})) /\
  (forall tr' response,
     dispatch request tr = (tr', inr response) ->
     callTool request tr = (tr', inr response)) /\
  (~ In (name request) toolNames ->
   callTool request tr
   = (tr, inr {| content :=
                   [{| type := "text";
                       text := "Error: " +:+ formatPlatformIOError
                                 (new OtherError ("Unknown tool: " +:+ name request) []) |}];
                 isError := Some true |})).
Proof.
  rewrite callTool_catches. repeat split.
  - destruct (dispatch request tr) as [tr' [error | response]]; eauto.
  - intros tr' error ->. reflexivity.
  - intros tr' response ->. reflexivity.
  - intros Hnot. rewrite (unknown_tool request tr Hnot). reflexivity.
Qed.


End ServerProperties.

(* ================================================================== *)
(** ** Further properties of the handlers                               *)
(* ================================================================== *)

Section HandlerProperties.
Context {V : Validation} {E : Errors} {X : Executor}.

(** [cleanProject] runs [run --target clean] once in the validated
    directory with a timeout of 60000 ms; on exit code 0 it returns the fixed
    success message, and on any other exit code it throws the [BuildError]
    [Clean failed: stderr] with the stderr text in its context. *)
Theorem cleanProject_outcome (projectDir validatedPath : string) (r : CommandResult.t) :
  validateProjectPath projectDir = inr validatedPath ->
  (forall inv, platformioExecutor inv = Resolved r) ->
  invocations (trace_of (cleanProject projectDir))
    = [{| command := "run";
          args := ["--target"; "clean"];
          options := {| cwd := validatedPath; timeout := 60000 |} |}] /\
  (CommandResult.exitCode r = 0%Z ->
     outcome_of (cleanProject projectDir)
     = inr {| CleanResult.success := true;
              CleanResult.message := "Successfully cleaned build artifacts" |}) /\
  (CommandResult.exitCode r <> 0%Z ->
     outcome_of (cleanProject projectDir)
     = inl (new BuildError ("Clean failed: " +:+ CommandResult.stderr r)
              [("projectDir", Some projectDir);
               ("stderr", Some (CommandResult.stderr r))])).
Proof.
  intros Hpath Hexec. repeat split.
  - unfold_run. cbn. rewrite Hpath. cbn. rewrite Hexec. cbn.
    destruct (CommandResult.exitCode r =? 0)%Z; reflexivity.
  - intros Hcode. unfold_run. cbn. rewrite Hpath. cbn. rewrite Hexec. cbn.
    rewrite Hcode. reflexivity.
  - intros Hcode. apply Z.eqb_neq in Hcode.
    unfold_run. cbn. rewrite Hpath. cbn. rewrite Hexec. cbn.
    rewrite Hcode. reflexivity.
Qed.

Lemma instanceof_BuildError_cls (error : Exn) :
  instanceof_BuildError error = true -> cls error = BuildError.
Proof.
  unfold instanceof_BuildError. destruct (cls error); cbn; congruence.
Qed.

(** Once the project path is accepted, every error a handler throws is of
    the class of its module, whatever the executor does: a [BuildError] from
    the handlers of [build.ts], an [UploadError] from those of [upload.ts]. *)
Theorem thrown_error_class (c : HandlerCall) (validatedPath : string) (error : Exn) :
  validateProjectPath (projectDirOf c) = inr validatedPath ->
  outcome_of (handle c) = inl error ->
  cls error = errorClassOf c.
Proof.
  destruct c; cbn [projectDirOf errorClassOf]; intros Hpath;
    unfold_run; cbn; rewrite Hpath; cbn;
    repeat (case_step; cbn); intros [= <-];
    try reflexivity; apply instanceof_BuildError_cls; assumption.
Qed.

(** A project path that [validateProjectPath] rejects stops every handler
    at once: the handler throws the validator's own error, unwrapped, and
    neither another validator nor the executor is called. *)
Theorem path_rejection_propagates (c : HandlerCall) (error : Exn) :
  validateProjectPath (projectDirOf c) = inl error ->
  run (handle c) = ([PathValidated (projectDirOf c) (inl error)], inl error).
Proof.
  destruct c; cbn [projectDirOf]; intros Hpath;
    unfold_run; cbn; rewrite Hpath; reflexivity.
Qed.

(** An empty environment is the same as no environment: the events of the
    call are the same (the name is neither validated nor pushed), and so is
    what the handler returns when the executor resolves, with [environment]
    reported as [default].  An empty port is likewise neither validated nor
    pushed. *)
Theorem empty_string_is_absent (c : HandlerCall) :
  trace_of (handle (withEnvironment c (Some ""))) = trace_of (handle (withEnvironment c None)) /\
  trace_of (handle (withPort c (Some ""))) = trace_of (handle (withPort c None)) /\
  ((forall inv, exists r, platformioExecutor inv = Resolved r) ->
   outcome_of (handle (withEnvironment c (Some "")))
   = outcome_of (handle (withEnvironment c None))).
Proof.
  repeat split.
  - destruct c; run_cases; reflexivity.
  - destruct c; run_cases; reflexivity.
  - intros Hres. destruct c; run_cases; try reflexivity;
      match goal with
      | H : platformioExecutor ?i = Rejected _ |- _ =>
          destruct (Hres i) as [r Hr]; congruence
      end.
Qed.

(** The upload handlers check the environment before the port: when the
    environment name is rejected, the error is the environment's, and the
    port is not even validated. *)
Theorem environment_checked_before_port
  (c : HandlerCall) (validatedPath e : string) :
  takesPort c = true ->
  validateProjectPath (projectDirOf c) = inr validatedPath ->
  truthy (environmentOf c) = Some e ->
  validateEnvironmentName e = false ->
  run (handle c)
  = ([PathValidated (projectDirOf c) (inr validatedPath); EnvironmentValidated e false],
     inl (new UploadError ("Invalid environment name: " +:+ e) [("environment", Some e)])).
Proof.
  destruct c; cbn [takesPort projectDirOf environmentOf]; intros Htakes Hpath Henv Hrej;
    try discriminate Htakes;
    unfold_run; cbn; rewrite Hpath; cbn; rewrite Henv; cbn; rewrite Hrej; reflexivity.
Qed.

(** No handler invokes the executor twice: whatever the executor replies,
    resolved or rejected, a call makes at most one invocation. *)
Theorem at_most_one_invocation (c : HandlerCall) :
  (List.length (invocations (trace_of (handle c))) <= 1)%nat.
Proof.
  destruct c; run_cases; auto.
Qed.

(** When its inputs pass validation, [uploadFilesystem] makes exactly one
    invocation: [run --target uploadfs], then the environment and the
    upload port when given, in the validated directory with a timeout of
    300000 ms; the leading [run] of the local array is not passed. *)
Theorem uploadFilesystem_invocation
  (projectDir validatedPath : string) (port environment : option string) :
  validateProjectPath projectDir = inr validatedPath ->
  acceptsEnvironment environment = true ->
  acceptsPort port = true ->
  invocations (trace_of (uploadFilesystem projectDir port environment))
  = [{| command := "run";
        args := ["--target"; "uploadfs"]
                ++ match truthy environment with
                   | Some e => ["--environment"; e]
                   | None => []
                   end
                ++ match truthy port with
                   | Some p => ["--upload-port"; p]
                   | None => []
                   end;
        options := {| cwd := validatedPath; timeout := 300000 |} |}].
Proof.
  intros Hpath Henv Hport. revert Henv Hport.
  unfold_run. cbn. rewrite Hpath. cbn.
  repeat (case_step; cbn); intros; try discriminate; reflexivity.
Qed.

(** Without an environment (absent or empty) the build handlers pass no
    [--environment] flag and report the environment [default]. *)
Theorem default_environment_reported
  (projectDir validatedPath target : string) (environment : option string)
  (r : CommandResult.t) :
  validateProjectPath projectDir = inr validatedPath ->
  truthy environment = None ->
  (forall inv, platformioExecutor inv = Resolved r) ->
  (argvs (trace_of (buildProject projectDir environment)) = [[]] /\
   environmentField (outcome_of (buildProject projectDir environment)) = Some "default") /\
  (argvs (trace_of (buildTarget projectDir target environment)) = [["--target"; target]] /\
   environmentField (outcome_of (buildTarget projectDir target environment))
   = Some "default").
Proof.
  intros Hpath Henv Hexec.
  unfold argvs, environmentField.
  repeat split; unfold_run; unfold buildResult, or_else;
    cbn; rewrite Hpath; cbn; rewrite Henv; cbn; rewrite Hexec; cbn;
    rewrite ?Henv; reflexivity.
Qed.

End HandlerProperties.

(* ================================================================== *)
(** ** The target list of [listTargets]                                 *)
(* ================================================================== *)

Lemma trimStart_includes (s : string) (c : ascii) :
  includes s c = false -> includes (trimStart s) c = false.
Proof.
  induction s as [| d rest IH]; cbn; [reflexivity |].
  intros H. apply orb_false_iff in H. destruct H as [Hd Hrest].
  destruct (isWhiteSpace d); [auto |]. cbn. rewrite Hd, Hrest. reflexivity.
Qed.

Lemma trimEnd_includes (s : string) (c : ascii) :
  includes s c = false -> includes (trimEnd s) c = false.
Proof.
  induction s as [| d rest IH]; cbn; [reflexivity |].
  intros H. apply orb_false_iff in H. destruct H as [Hd Hrest].
  specialize (IH Hrest).
  destruct (trimEnd rest) as [| k kept].
  - destruct (isWhiteSpace d); cbn; [reflexivity |]. rewrite Hd. reflexivity.
  - cbn in *. rewrite Hd, IH. reflexivity.
Qed.

Lemma trim_includes (s : string) (c : ascii) :
  includes s c = false -> includes (trim s) c = false.
Proof.
  intros H. unfold trim. apply trimEnd_includes, trimStart_includes, H.
Qed.

Lemma trimStart_startsBlack (s : string) : startsBlack (trimStart s).
Proof.
  induction s as [| d rest IH]; cbn; [exact I |].
  destruct (isWhiteSpace d) eqn:Hd; [exact IH | exact Hd].
Qed.

Lemma trimEnd_startsBlack (s : string) : startsBlack s -> startsBlack (trimEnd s).
Proof.
  destruct s as [| d rest]; cbn; [auto |]. intros Hd.
  destruct (trimEnd rest); [rewrite Hd |]; exact Hd.
Qed.

Lemma trimStart_fixed (s : string) : startsBlack s -> trimStart s = s.
Proof.
  destruct s as [| d rest]; cbn; [reflexivity |]. intros ->. reflexivity.
Qed.

Lemma trimEnd_idempotent (s : string) : trimEnd (trimEnd s) = trimEnd s.
Proof.
  induction s as [| d rest IH]; cbn; [reflexivity |].
  destruct (trimEnd rest) as [| k kept] eqn:Hrest.
  - destruct (isWhiteSpace d) eqn:Hd; cbn; [reflexivity |]. rewrite Hd. reflexivity.
  - change (trimEnd (String d (String k kept))) with
      (match trimEnd (String k kept) with
       | EmptyString => if isWhiteSpace d then EmptyString else String d EmptyString
       | kept' => String d kept'
       end).
    rewrite IH. reflexivity.
Qed.

Lemma trim_idempotent (s : string) : trim (trim s) = trim s.
Proof.
  unfold trim.
  rewrite (trimStart_fixed (trimEnd (trimStart s))).
  - apply trimEnd_idempotent.
  - apply trimEnd_startsBlack, trimStart_startsBlack.
Qed.

Lemma in_parseTargets (stdout t : string) :
  In t (parseTargets stdout) <->
  exists line, In line (split LF stdout) /\ t = trim line /\ isTargetLine t = true.
Proof.
  rewrite parseTargets_targetLines. unfold targetLines.
  change (fun l : string =>
            nonEmpty l && negb (startsWith l "Environment") && negb (includes l ":"))
    with isTargetLine.
  rewrite filter_In, in_map_iff. split.
  - intros [[line [Ht Hin]] Hkeep]. exists line. auto.
  - intros [line [Hin [Ht Hkeep]]]. split; [exists line; auto | exact Hkeep].
Qed.

(** Every target [listTargets] returns is a clean name: it is not empty,
    holds no colon and no line feed, does not start with [Environment],
    and has no white space at either end. *)
Theorem listTargets_targets_are_clean
  {V : Validation} {E : Errors} {X : Executor}
  (projectDir : string) (environment : option string) (targets : list string) (t : string) :
  outcome_of (listTargets projectDir environment) = inr targets ->
  In t targets ->
  t <> "" /\
  includes t ":" = false /\
  includes t LF = false /\
  startsWith t "Environment" = false /\
  trim t = t.
Proof.
  intros Hout Hin.
  assert (Hparsed : exists stdout, targets = parseTargets stdout).
  { revert Hout. run_cases; intros [= <-]; eexists; reflexivity. }
  destruct Hparsed as [stdout ->].
  apply in_parseTargets in Hin. destruct Hin as [line [Hline [-> Hkeep]]].
  unfold isTargetLine in Hkeep.
  apply andb_true_iff in Hkeep. destruct Hkeep as [Hkeep Hcolon].
  apply andb_true_iff in Hkeep. destruct Hkeep as [Hne Henv].
  apply negb_true_iff in Hcolon. apply negb_true_iff in Henv.
  repeat split; auto.
  - intros Hempty. rewrite Hempty in Hne. discriminate Hne.
  - apply trim_includes. apply (split_no_separator LF stdout). exact Hline.
  - apply trim_idempotent.
Qed.

Lemma split_app (sep : ascii) (a b : string) :
  split sep (a +:+ String sep b) = split sep a ++ split sep b.
Proof.
  induction a as [| c rest IH]; cbn.
  - rewrite Ascii.eqb_refl. reflexivity.
  - destruct (Ascii.eqb c sep).
    + rewrite IH. reflexivity.
    + rewrite IH. pose proof (split_nonempty sep rest) as Hne.
      destruct (split sep rest); [contradiction | reflexivity].
Qed.

(** The target list is read line by line: the targets of two outputs joined
    by a line feed are the targets of the first followed by those of the
    second, and an empty output has no target. *)
Theorem parseTargets_app (a b : string) :
  parseTargets (a +:+ String LF b) = parseTargets a ++ parseTargets b /\
  parseTargets "" = [].
Proof.
  split; [| reflexivity].
  rewrite !parseTargets_targetLines. unfold targetLines.
  rewrite split_app, map_app, filter_app. reflexivity.
Qed.

(* ================================================================== *)
(** ** Further properties of the dispatcher                             *)
(* ================================================================== *)

(** Reduces a tool call on a known tool name to the run of its case. *)
Ltac enter_case :=
  unfold callTool, try_catch, dispatch;
  cbn [name arguments toolName String.eqb Ascii.eqb Bool.eqb].

Ltac unfold_schemas :=
  unfold ListBoardsParamsSchema, GetBoardInfoParamsSchema, InitProjectParamsSchema,
    BuildProjectParamsSchema, CleanProjectParamsSchema, UploadFirmwareParamsSchema,
    UploadFilesystemParamsSchema, StartMonitorParamsSchema, SearchLibrariesParamsSchema,
    InstallLibraryParamsSchema, ListInstalledLibrariesParamsSchema,
    z_object, field, andThen, z_default, z_optional, z_min, z_string, z_number,
    z_record_string.

Section DispatcherProperties.
Context {V : Validation} {E : Errors} {X : Executor} {T : Tools} {S : Serializer}.

(** A request for one of the project tools whose [projectDir] is missing,
    not a string or empty is answered with the marked error result of the
    schema, and nothing else happens: no validator and no executor is
    called. *)
Theorem schema_rejection_touches_nothing
  (tool : string) (args : option Json) (tr : Trace) :
  In tool projectTools ->
  validProjectDirArg args = false ->
  exists issue,
    callTool {| name := tool; arguments := args |} tr
    = (tr, inr {| content := [{| type := "text";
                                 text := "Error: " +:+ formatPlatformIOError (zodError issue) |}];
                  isError := Some true |}).
Proof.
  intros Hin Hbad. unfold validProjectDirArg in Hbad.
  cbn in Hin. destruct Hin as [<- | [<- | [<- | [<- | []]]]];
    enter_case; unfold bind, lift; unfold_schemas;
    (destruct args as [[| | | | | fields] |]; try (eexists; reflexivity));
    (destruct (lookup "projectDir" fields) as [[| | | s | |] |];
       try (eexists; reflexivity));
    rewrite Hbad; eexists; reflexivity.
Qed.

(** A build or an upload that exits with a non-zero code is not an error of
    the tool call: the result of [build_project], [upload_firmware] and
    [upload_filesystem] is then the ordinary text result (no [isError])
    holding the serialised handler result, with [success] false and the
    scanned [errors]. *)
Theorem failed_run_is_ordinary_result
  (args : option Json) (projectDir validatedPath : string)
  (port environment : option string) (r : CommandResult.t) (tr : Trace) :
  validateProjectPath projectDir = inr validatedPath ->
  acceptsEnvironment environment = true ->
  acceptsPort port = true ->
  (forall inv, platformioExecutor inv = Resolved r) ->
  (BuildProjectParamsSchema args = inr (BuildProjectParams.make projectDir environment) ->
   exists tr' b,
     callTool {| name := "build_project"; arguments := args |} tr
     = (tr', inr {| content := [{| type := "text";
                                   text := JSON_stringify (BuildResult_toJson b) |}];
                    isError := None |})
     /\ interpretsBuild r b) /\
  (UploadFirmwareParamsSchema args = inr (UploadParams.make projectDir port environment) ->
   exists tr' u,
     callTool {| name := "upload_firmware"; arguments := args |} tr
     = (tr', inr {| content := [{| type := "text";
                                   text := JSON_stringify (UploadResult_toJson u) |}];
                    isError := None |})
     /\ interpretsUpload r u) /\
  (UploadFilesystemParamsSchema args = inr (UploadParams.make projectDir port environment) ->
   exists tr' u,
     callTool {| name := "upload_filesystem"; arguments := args |} tr
     = (tr', inr {| content := [{| type := "text";
                                   text := JSON_stringify (UploadResult_toJson u) |}];
                    isError := None |})
     /\ interpretsUpload r u).
Proof.
  intros Hpath Henv Hport Hexec.
  unfold interpretsBuild, interpretsUpload.
  repeat split; intros Hparse; enter_case; unfold bind at 1; unfold lift;
    rewrite Hparse; cbn [BuildProjectParams.projectDir BuildProjectParams.environment
                         UploadParams.projectDir UploadParams.port UploadParams.environment];
    unfold_run; cbn; rewrite Hpath; cbn;
    destruct (truthy environment) as [e |]; cbn; try rewrite Henv; cbn;
    destruct (truthy port) as [p |]; cbn; try rewrite Hport; cbn;
    rewrite Hexec; cbn;
    do 2 eexists; (split; [reflexivity | apply interpretsExit_intro]).
Qed.

(** A clean that exits with a non-zero code is an error of the tool call:
    [clean_project] answers with the marked error result for the
    [BuildError] [Clean failed: stderr]. *)
Theorem failed_clean_is_error_result
  (args : option Json) (projectDir validatedPath : string)
  (r : CommandResult.t) (tr : Trace) :
  CleanProjectParamsSchema args = inr (CleanProjectParams.make projectDir) ->
  validateProjectPath projectDir = inr validatedPath ->
  (forall inv, platformioExecutor inv = Resolved r) ->
  CommandResult.exitCode r <> 0%Z ->
  snd (callTool {| name := "clean_project"; arguments := args |} tr)
  = inr {| content :=
             [{| type := "text";
                 text := "Error: " +:+ formatPlatformIOError
                           (new BuildError ("Clean failed: " +:+ CommandResult.stderr r)
                              [("projectDir", Some projectDir);
                               ("stderr", Some (CommandResult.stderr r))]) |}];
           isError := Some true |}.
Proof.
  intros Hparse Hpath Hexec Hcode. apply Z.eqb_neq in Hcode.
  enter_case. unfold bind at 1. unfold lift. rewrite Hparse.
  cbn [CleanProjectParams.projectDir].
  unfold_run. cbn. rewrite Hpath. cbn. rewrite Hexec. cbn. rewrite Hcode. reflexivity.
Qed.

(** A rejected environment name reaches the caller as the marked error
    result of the validation error, and the request makes no executor
    invocation. *)
Theorem rejected_environment_answer
  (args : option Json) (projectDir validatedPath e : string)
  (port environment : option string) (tr : Trace) :
  validateProjectPath projectDir = inr validatedPath ->
  truthy environment = Some e ->
  validateEnvironmentName e = false ->
  let answer (errorClass : ErrorClass) :=
    (tr ++ [PathValidated projectDir (inr validatedPath)] ++ [EnvironmentValidated e false],
     inr {| content :=
              [{| type := "text";
                  text := "Error: " +:+ formatPlatformIOError
                            (new errorClass ("Invalid environment name: " +:+ e)
                               [("environment", Some e)]) |}];
            isError := Some true |}) in
  (BuildProjectParamsSchema args = inr (BuildProjectParams.make projectDir environment) ->
   callTool {| name := "build_project"; arguments := args |} tr = answer BuildError) /\
  (UploadFirmwareParamsSchema args = inr (UploadParams.make projectDir port environment) ->
   callTool {| name := "upload_firmware"; arguments := args |} tr = answer UploadError) /\
  (UploadFilesystemParamsSchema args = inr (UploadParams.make projectDir port environment) ->
   callTool {| name := "upload_filesystem"; arguments := args |} tr = answer UploadError).
Proof.
  intros Hpath Henv Hrej answer. subst answer.
  repeat split; intros Hparse; enter_case; unfold bind at 1; unfold lift;
    rewrite Hparse; cbn [BuildProjectParams.projectDir BuildProjectParams.environment
                         UploadParams.projectDir UploadParams.port UploadParams.environment];
    unfold_run; cbn; rewrite Hpath; cbn; rewrite Henv; cbn; rewrite Hrej; cbn;
    rewrite <- app_assoc; reflexivity.
Qed.

Lemma listedTools_names : map toolName listedTools = toolNames.
Proof. reflexivity. Qed.

(** Closes a tool call whose schema rejects the arguments, by cases on the
    properties the schema reads. *)
Ltac schema_rejects :=
  repeat match goal with
         | |- context [match lookup ?k ?fields with _ => _ end] =>
             destruct (lookup k fields) as [[| | | ? | |] |]
         | |- context [if (?n <=? ?m)%nat then _ else _] => destruct (n <=? m)%nat
         | |- context [match stringValues ?l with _ => _ end] => destruct (stringValues l)
         end;
  try discriminate;
  eexists; reflexivity.

(** The tool list and the parameter schemas agree on what a call must
    carry: for every listed tool, arguments that lack a property of its
    [required] array, or that give one of its listed properties a value of
    another type than the listed one, are answered with the marked error
    result of the schema before anything else is called. *)
Theorem advertised_schema_enforced
  (d : ToolDescriptor) (fields : list (string * Json)) (tr : Trace) :
  In d listedTools ->
  (exists k, In k (required d) /\ lookup k fields = None) \/
  (exists k ty v, In (k, ty) (properties d) /\ lookup k fields = Some v
                  /\ hasType ty v = false) ->
  exists issue,
    callTool {| name := toolName d; arguments := Some (JObject fields) |} tr
    = (tr, inr {| content := [{| type := "text";
                                 text := "Error: " +:+ formatPlatformIOError (zodError issue) |}];
                  isError := Some true |}).
Proof.
  intros Hin Hcases. cbn in Hin.
  repeat (destruct Hin as [<- | Hin]); try contradiction;
    cbn [required properties] in Hcases;
    destruct Hcases as [[k [Hk Hnone]] | [k [ty [v [Hk [Hsome Hty]]]]]];
    cbn in Hk;
    repeat match goal with
           | H : _ \/ _ |- _ => destruct H as [H | H]
           | H : False |- _ => contradiction
           end;
    first [subst k | inversion Hk; subst];
    enter_case; unfold bind, lift; unfold_schemas.
  all: try rewrite Hnone.
  all: try (rewrite Hsome; destruct v; cbn in Hty; try discriminate Hty).
  all: schema_rejects.
Qed.

(** The parameter schema of [search_libraries] accepts whatever
    [LibrarySearchConfigSchema] accepts, with the same query and limit (20
    when the limit is absent), but not the other way round: a limit of zero
    or below, which the configuration schema rejects, is parsed and passed
    to [searchLibraries] as it is. *)
Theorem search_limit_not_checked_positive
  (fields : list (string * Json)) (tr : Trace) :
  (forall config,
     LibrarySearchConfigSchema (Some (JObject fields)) = inr config ->
     SearchLibrariesParamsSchema (Some (JObject fields))
     = inr (SearchLibrariesParams.make (LibrarySearchConfig.query config)
              (match LibrarySearchConfig.limit config with
               | Some n => n
               | None => 20%Q
               end))) /\
  (forall query n,
     z_min 1 z_string (lookup "query" fields) = inr query ->
     lookup "limit" fields = Some (JNumber n) ->
     (n <= 0)%Q ->
     (exists issue,
        LibrarySearchConfigSchema (Some (JObject fields)) = inl (zodError issue)) /\
     dispatch {| name := "search_libraries"; arguments := Some (JObject fields) |} tr
     = (libraries <- searchLibraries query n ;; ret (textResult libraries)) tr).
Proof.
  split.
  - intros config.
    unfold LibrarySearchConfigSchema, SearchLibrariesParamsSchema, z_object, field, andThen,
      z_min_message, z_min, z_string, z_default, z_optional, z_positive, z_number.
    destruct (lookup "query" fields) as [[| | | s | |] |]; try discriminate.
    destruct (1 <=? String.length s)%nat; try discriminate.
    destruct (lookup "limit" fields) as [[| | n | | |] |]; try discriminate.
    + destruct (Qle_bool n 0); try discriminate. intros [= <-]. reflexivity.
    + intros [= <-]. reflexivity.
  - intros query n Hquery Hlimit Hle. apply Qle_bool_iff in Hle. split.
    + revert Hquery.
      unfold LibrarySearchConfigSchema, z_object, field, andThen,
        z_min_message, z_min, z_string, z_optional, z_positive, z_number.
      rewrite Hlimit.
      destruct (lookup "query" fields) as [[| | | s | |] |]; try discriminate.
      destruct (1 <=? String.length s)%nat; try discriminate.
      intros _. rewrite Hle. eexists. reflexivity.
    + unfold dispatch. cbn [name arguments String.eqb Ascii.eqb Bool.eqb].
      unfold bind at 1. unfold lift.
      unfold SearchLibrariesParamsSchema, z_object, field, andThen.
      rewrite Hquery, Hlimit. reflexivity.
Qed.

End DispatcherProperties.

(* ================================================================== *)
(** ** The properties on the sample collaborators                       *)
(* ================================================================== *)

Section Instances.
#[local] Existing Instance Sample.validation.
#[local] Existing Instance Sample.errors.
#[local] Existing Instance Sample.tools.
#[local] Existing Instance Sample.serializer.

(** C1, as stated, fails: [buildTarget] hands the executor a target name
    that no validator has seen. *)
Lemma raw_target_crosses_boundary :
  ~ (forall c : HandlerCall, boundaryAsStated (X := Sample.replying Sample.succeeded) c).
Proof.
  intros Hclaim.
  destruct (Hclaim (BuildTarget "/proj" "all; reboot" None)
              [PathValidated "/proj" (inr "/proj")]
              {| command := "run";
                 args := ["--target"; "all; reboot"];
                 options := {| cwd := "/proj"; timeout := 600000 |} |}
              [] eq_refl) as [_ Hids].
  destruct (Hids "all; reboot") as [ev [Hin Hacc]]; cbn; auto.
  destruct Hin as [<- | []]. discriminate Hacc.
Qed.

Lemma boundary_invariant_witness :
  (validateProjectPath "/proj" = inr "/proj" /\
   In (PathValidated "/proj" (inr "/proj"))
     [PathValidated "/proj" (inr "/proj"); EnvironmentValidated "esp32dev" true]) /\
  validateEnvironmentName "esp32dev" = true /\
  In (EnvironmentValidated "esp32dev" true)
    [PathValidated "/proj" (inr "/proj"); EnvironmentValidated "esp32dev" true].
Proof.
  pose proof (boundary_invariant (X := Sample.replying Sample.succeeded)
                (BuildTarget "/proj" "upload" (Some "esp32dev"))
                [PathValidated "/proj" (inr "/proj"); EnvironmentValidated "esp32dev" true]
                []
                {| command := "run";
                   args := ["--target"; "upload"; "--environment"; "esp32dev"];
                   options := {| cwd := "/proj"; timeout := 600000 |} |}
                eq_refl) as [Hcwd [Henv _]].
  destruct (Henv eq_refl "esp32dev" eq_refl) as [Hacc [Hseen _]].
  exact (conj Hcwd (conj Hacc Hseen)).
Defined.

Lemma listTargets_skips_environment_check_witness :
  trace_of (listTargets (X := Sample.replying Sample.succeeded) "/proj" (Some "bad env;"))
  = [PathValidated "/proj" (inr "/proj");
     Executed {| command := "run";
                 args := ["--list-targets"; "--environment"; "bad env;"];
                 options := {| cwd := "/proj"; timeout := 30000 |} |}].
Proof.
  apply (listTargets_skips_environment_check (X := Sample.replying Sample.succeeded)
           "/proj" "/proj" "bad env;").
  - reflexivity.
  - discriminate.
  - reflexivity.
Defined.

Lemma guarded_rejection_never_executes_witness :
  invocations (trace_of (handle (X := Sample.replying Sample.succeeded)
                           (UploadFirmware "/proj" (Some "ttyUSB0; reboot") None))) = [] /\
  exists error,
    outcome_of (handle (X := Sample.replying Sample.succeeded)
                  (UploadFirmware "/proj" (Some "ttyUSB0; reboot") None)) = inl error.
Proof.
  apply (guarded_rejection_never_executes (X := Sample.replying Sample.succeeded)
           (UploadFirmware "/proj" (Some "ttyUSB0; reboot") None)); reflexivity.
Defined.

Lemma exit_code_interpretation_witness :
  exists u,
    outcome_of (uploadFirmware (X := Sample.replying Sample.failed)
                  "/proj" (Some "/dev/ttyUSB0") (Some "esp32dev")) = inr u /\
    interpretsUpload Sample.failed u.
Proof.
  apply (exit_code_interpretation (X := Sample.replying Sample.failed)
           "/proj" "/proj" "upload" (Some "/dev/ttyUSB0") (Some "esp32dev") Sample.failed);
    reflexivity.
Defined.

Lemma callTool_always_responds_witness :
  callTool (X := Sample.replying Sample.succeeded)
    {| name := "frobnicate"; arguments := None |} []
  = ([], inr {| content := [{| type := "text"; text := "Error: Unknown tool: frobnicate" |}];
                isError := Some true |}).
Proof.
  refine (proj2 (proj2 (proj2
            (callTool_always_responds (X := Sample.replying Sample.succeeded)
               {| name := "frobnicate"; arguments := None |} []))) _).
  cbn. intros H. repeat (destruct H as [H | H]; [discriminate H |]). exact H.
Defined.

Lemma buildAndUpload_is_uploadFirmware_witness :
  invocations (trace_of (buildAndUpload (X := Sample.replying Sample.succeeded)
                           "/proj" (Some "COM3") None))
  = [{| command := "run";
        args := ["--target"; "upload"; "--upload-port"; "COM3"];
        options := {| cwd := "/proj"; timeout := 300000 |} |}].
Proof.
  rewrite (proj2 (proj2 (buildAndUpload_is_uploadFirmware
                           (X := Sample.replying Sample.succeeded)
                           "/proj" (Some "COM3") None))).
  reflexivity.
Defined.

Lemma environment_case_preserved_witness :
  toLowerCase "ESP32dev" = toLowerCase "esp32dev" /\
  argvs (trace_of (buildProject (X := Sample.replying Sample.succeeded)
                     "/proj" (Some "ESP32dev")))
    <> argvs (trace_of (buildProject (X := Sample.replying Sample.succeeded)
                          "/proj" (Some "esp32dev"))) /\
  environmentField (outcome_of (buildProject (X := Sample.replying Sample.succeeded)
                                  "/proj" (Some "ESP32dev")))
    <> environmentField (outcome_of (buildProject (X := Sample.replying Sample.succeeded)
                                       "/proj" (Some "esp32dev"))).
Proof.
  split; [reflexivity |].
  apply (environment_case_preserved (X := Sample.replying Sample.succeeded)
           "/proj" "/proj" "upload" "esp32dev" Sample.succeeded);
    try reflexivity; try discriminate; intros; reflexivity.
Defined.

(** C8, as stated, fails: a call whose project directory is rejected makes
    no executor invocation. *)
Lemma uploadAndMonitor_rejected_makes_no_invocation :
  List.length (invocations (trace_of (uploadAndMonitor (X := Sample.replying Sample.succeeded)
                                        "/tmp/../etc" (Some "/dev/ttyUSB0") None)))
  <> 1%nat.
Proof. cbn. discriminate. Qed.

Lemma uploadAndMonitor_invocation_witness :
  invocations (trace_of (uploadAndMonitor (X := Sample.replying Sample.succeeded)
                           "/proj" (Some "/dev/ttyUSB0") (Some "esp32dev")))
  = [{| command := "run";
        args := ["--target"; "upload"; "--target"; "monitor";
                 "--environment"; "esp32dev";
                 "--upload-port"; "/dev/ttyUSB0"; "--monitor-port"; "/dev/ttyUSB0"];
        options := {| cwd := "/proj"; timeout := 300000 |} |}].
Proof.
  apply (uploadAndMonitor_invocation (X := Sample.replying Sample.succeeded)
           "/proj" "/proj" (Some "/dev/ttyUSB0") (Some "esp32dev")); reflexivity.
Defined.

Lemma listTargets_outcome_witness :
  outcome_of (listTargets (X := Sample.replying Sample.succeeded) "/proj" None)
  = inr ["upload"; "monitor"].
Proof.
  apply (listTargets_outcome (X := Sample.replying Sample.succeeded)
           "/proj" "/proj" None Sample.succeeded); reflexivity.
Defined.


End Instances.

(* ================================================================== *)
(** ** The further properties on the sample collaborators               *)
(* ================================================================== *)

Section FurtherInstances.
#[local] Existing Instance Sample.validation.
#[local] Existing Instance Sample.errors.
#[local] Existing Instance Sample.tools.
#[local] Existing Instance Sample.serializer.

Lemma cleanProject_outcome_witness :
  outcome_of (cleanProject (X := Sample.replying Sample.failed) "/proj")
  = inl (new BuildError "Clean failed: Error: Could not open port /dev/ttyUSB0"
           [("projectDir", Some "/proj");
            ("stderr", Some "Error: Could not open port /dev/ttyUSB0")]).
Proof.
  refine (proj2 (proj2 (cleanProject_outcome (X := Sample.replying Sample.failed)
                          "/proj" "/proj" Sample.failed eq_refl (fun _ => eq_refl))) _).
  discriminate.
Defined.

Lemma thrown_error_class_witness :
  exists error,
    outcome_of (handle (X := Failing.rejecting Failing.notFound)
                  (UploadAndMonitor "/proj" None None)) = inl error /\
    cls error = UploadError.
Proof.
  eexists. split; [reflexivity |].
  apply (thrown_error_class (X := Failing.rejecting Failing.notFound)
           (UploadAndMonitor "/proj" None None) "/proj"); reflexivity.
Defined.

Lemma path_rejection_propagates_witness :
  run (handle (X := Sample.replying Sample.succeeded)
         (ListTargets "/tmp/../etc" (Some "esp32dev")))
  = ([PathValidated "/tmp/../etc"
        (inl (new OtherError "Invalid path: /tmp/../etc" [("path", Some "/tmp/../etc")]))],
     inl (new OtherError "Invalid path: /tmp/../etc" [("path", Some "/tmp/../etc")])).
Proof.
  apply (path_rejection_propagates (X := Sample.replying Sample.succeeded)
           (ListTargets "/tmp/../etc" (Some "esp32dev"))).
  reflexivity.
Defined.

Lemma empty_string_is_absent_witness :
  outcome_of (handle (X := Sample.replying Sample.succeeded) (BuildProject "/proj" (Some "")))
  = outcome_of (handle (X := Sample.replying Sample.succeeded) (BuildProject "/proj" None)).
Proof.
  refine (proj2 (proj2 (empty_string_is_absent (X := Sample.replying Sample.succeeded)
                          (BuildProject "/proj" None))) _).
  intros inv. exists Sample.succeeded. reflexivity.
Defined.

Lemma environment_checked_before_port_witness :
  run (handle (X := Sample.replying Sample.succeeded)
         (UploadFirmware "/proj" (Some "not a port") (Some "bad env;")))
  = ([PathValidated "/proj" (inr "/proj"); EnvironmentValidated "bad env;" false],
     inl (new UploadError "Invalid environment name: bad env;"
            [("environment", Some "bad env;")])).
Proof.
  apply (environment_checked_before_port (X := Sample.replying Sample.succeeded)
           (UploadFirmware "/proj" (Some "not a port") (Some "bad env;")) "/proj" "bad env;");
    reflexivity.
Defined.

Lemma listTargets_targets_are_clean_witness :
  "monitor" <> "" /\
  includes "monitor" ":" = false /\
  includes "monitor" LF = false /\
  startsWith "monitor" "Environment" = false /\
  trim "monitor" = "monitor".
Proof.
  apply (listTargets_targets_are_clean (X := Sample.replying Sample.succeeded)
           "/proj" None ["upload"; "monitor"] "monitor").
  - reflexivity.
  - cbn. auto.
Defined.

Lemma uploadFilesystem_invocation_witness :
  invocations (trace_of (uploadFilesystem (X := Sample.replying Sample.succeeded)
                           "/proj" (Some "COM3") (Some "esp32dev")))
  = [{| command := "run";
        args := ["--target"; "uploadfs"; "--environment"; "esp32dev"; "--upload-port"; "COM3"];
        options := {| cwd := "/proj"; timeout := 300000 |} |}].
Proof.
  apply (uploadFilesystem_invocation (X := Sample.replying Sample.succeeded)
           "/proj" "/proj" (Some "COM3") (Some "esp32dev")); reflexivity.
Defined.

Lemma default_environment_reported_witness :
  argvs (trace_of (buildTarget (X := Sample.replying Sample.succeeded) "/proj" "size" (Some "")))
    = [["--target"; "size"]] /\
  environmentField (outcome_of (buildTarget (X := Sample.replying Sample.succeeded)
                                  "/proj" "size" (Some ""))) = Some "default".
Proof.
  apply (default_environment_reported (X := Sample.replying Sample.succeeded)
           "/proj" "/proj" "size" (Some "") Sample.succeeded); reflexivity.
Defined.

Lemma schema_rejection_touches_nothing_witness :
  exists issue,
    callTool (X := Sample.replying Sample.succeeded)
      {| name := "upload_firmware";
         arguments := Some (JObject [("projectDir", JString ""); ("port", JString "COM3")]) |} []
    = ([], inr {| content := [{| type := "text"; text := "Error: " +:+ issue |}];
                  isError := Some true |}).
Proof.
  refine (schema_rejection_touches_nothing (X := Sample.replying Sample.succeeded)
            "upload_firmware"
            (Some (JObject [("projectDir", JString ""); ("port", JString "COM3")])) [] _ _).
  - cbn. auto.
  - reflexivity.
Defined.

Lemma failed_run_is_ordinary_result_witness :
  exists tr' b,
    callTool (X := Sample.replying Sample.failed)
      {| name := "build_project";
         arguments := Some (JObject [("projectDir", JString "/proj")]) |} []
    = (tr', inr {| content := [{| type := "text";
                                  text := JSON_stringify (BuildResult_toJson b) |}];
                   isError := None |})
    /\ interpretsBuild Sample.failed b.
Proof.
  apply (failed_run_is_ordinary_result (X := Sample.replying Sample.failed)
           (Some (JObject [("projectDir", JString "/proj")]))
           "/proj" "/proj" None None Sample.failed []); reflexivity.
Defined.

Lemma failed_clean_is_error_result_witness :
  snd (callTool (X := Sample.replying Sample.failed)
         {| name := "clean_project";
            arguments := Some (JObject [("projectDir", JString "/proj")]) |} [])
  = inr {| content :=
             [{| type := "text";
                 text := "Error: Clean failed: Error: Could not open port /dev/ttyUSB0" |}];
           isError := Some true |}.
Proof.
  refine (failed_clean_is_error_result (X := Sample.replying Sample.failed)
            (Some (JObject [("projectDir", JString "/proj")]))
            "/proj" "/proj" Sample.failed [] eq_refl eq_refl (fun _ => eq_refl) _).
  discriminate.
Defined.

Lemma rejected_environment_answer_witness :
  callTool (X := Sample.replying Sample.succeeded)
    {| name := "build_project";
       arguments := Some (JObject [("projectDir", JString "/proj");
                                   ("environment", JString "bad env;")]) |} []
  = ([PathValidated "/proj" (inr "/proj"); EnvironmentValidated "bad env;" false],
     inr {| content := [{| type := "text";
                           text := "Error: Invalid environment name: bad env;" |}];
            isError := Some true |}).
Proof.
  refine (proj1 (rejected_environment_answer (X := Sample.replying Sample.succeeded)
                   (Some (JObject [("projectDir", JString "/proj");
                                   ("environment", JString "bad env;")]))
                   "/proj" "/proj" "bad env;" None (Some "bad env;") []
                   eq_refl eq_refl eq_refl) eq_refl).
Defined.

Lemma advertised_schema_enforced_witness :
  exists issue,
    callTool (X := Sample.replying Sample.succeeded)
      {| name := "search_libraries";
         arguments := Some (JObject [("query", JString "wifi"); ("limit", JString "5")]) |} []
    = ([], inr {| content := [{| type := "text"; text := "Error: " +:+ issue |}];
                  isError := Some true |}).
Proof.
  refine (advertised_schema_enforced (X := Sample.replying Sample.succeeded)
            {| toolName := "search_libraries";
               properties := [("query", TString); ("limit", TNumber)];
               required := ["query"] |}
            [("query", JString "wifi"); ("limit", JString "5")] [] _ _).
  - cbn. tauto.
  - right. exists "limit", TNumber, (JString "5"). cbn. auto.
Defined.

Lemma search_limit_not_checked_positive_witness :
  dispatch (X := Sample.replying Sample.succeeded)
    {| name := "search_libraries";
       arguments := Some (JObject [("query", JString "wifi"); ("limit", JNumber 0)]) |} []
  = ([], inr (textResult (JArray [JString "wifi"; JNumber 0]))).
Proof.
  refine (proj2 (proj2 (search_limit_not_checked_positive
                          (X := Sample.replying Sample.succeeded)
                          [("query", JString "wifi"); ("limit", JNumber 0)] [])
                   "wifi" 0%Q eq_refl eq_refl _)).
  discriminate.
Defined.

End FurtherInstances.
